(** * DHLink: Denavit-Hartenberg link records of the robotics toolbox

    A shallow embedding of [roboticstoolbox/robot/DHLink.py].  Python
    floats are IEEE-754 binary64 numbers and are modelled by Rocq's
    primitive floats, so every arithmetic operation and comparison below
    rounds and compares exactly as the interpreter does. *)

From Stdlib Require Import ZArith List String Floats Bool Lia.
From stdpp Require Import base option gmap.
Import ListNotations.

Local Open Scope Z_scope.

(** ** Exceptions and fallible computations *)

(** The exception classes the module raises, with their messages.
    [IndexError] is what indexing a too short array raises, and
    [AttributeError] what calling an array method on a list does.
    [ReferenceError] stands for a method call on a location that holds no
    object; Python has no such references, and every statement below is
    about a location that holds a link. *)
Inductive exn : Type :=
| ValueError (msg : string)
| TypeError (msg : string)
| IndexError (msg : string)
| AttributeError (msg : string)
| ReferenceError.

(** A computation that returns or raises. *)
Inductive result (A : Type) : Type :=
| Raise (e : exn)
| Return (a : A).
Arguments Raise {A} e.
Arguments Return {A} a.

#[global] Instance result_ret : MRet result := @Return.
#[global] Instance result_bind : MBind result := fun A B f c =>
  match c with
  | Raise e => Raise e
  | Return a => f a
  end.

(** ** NumPy values *)

(** What a caller may hand to a setter: a Python scalar, a list (or tuple)
    of numbers, or an [ndarray] of one, two or three dimensions, given by
    its elements, its rows or its planes.  Lists of lists and symbolic
    values are outside the model. *)
Inductive pyval : Type :=
| Scalar (x : float)
| PyList (v : list float)
| Vector (v : list float)
| Matrix (rows : list (list float))
| Tensor (planes : list (list (list float))).

(** [v[i]] on a one-dimensional array. *)
Definition getitem (v : list float) (i : nat) : result float :=
  match nth_error v i with
  | Some x => Return x
  | None => Raise (IndexError "index out of bounds")
  end.

(** ** The link object *)

Definition loc := nat.

(** The attributes of a link.  [id], which only [__str__] reads, is left
    out. *)
Record DHLink : Type := mkDHLink {
  _robot : option loc;
  _sigma : Z;
  _theta : float;
  _d : float;
  _alpha : float;
  _a : float;
  _mdh : Z;
  _offset : float;
  _flip : bool;
  _qlim : list float;
  _m : float;
  _r : list float;
  _I : pyval;
  _Jm : float;
  _B : float;
  _Tc : list float;
  _G : float
}.

(** Attribute assignment [self._x = v]: the object with one attribute
    rebound and every other attribute kept. *)

Definition set_sigma (v : Z) (self : DHLink) : DHLink :=
  mkDHLink (_robot self) v (_theta self) (_d self) (_alpha self) (_a self)
    (_mdh self) (_offset self) (_flip self) (_qlim self) (_m self)
    (_r self) (_I self) (_Jm self) (_B self) (_Tc self) (_G self) .

Definition set_theta (v : float) (self : DHLink) : DHLink :=
  mkDHLink (_robot self) (_sigma self) v (_d self) (_alpha self) (_a self)
    (_mdh self) (_offset self) (_flip self) (_qlim self) (_m self)
    (_r self) (_I self) (_Jm self) (_B self) (_Tc self) (_G self) .

Definition set_d (v : float) (self : DHLink) : DHLink :=
  mkDHLink (_robot self) (_sigma self) (_theta self) v (_alpha self)
    (_a self) (_mdh self) (_offset self) (_flip self) (_qlim self)
    (_m self) (_r self) (_I self) (_Jm self) (_B self) (_Tc self) (_G self)
    .

Definition set_alpha (v : float) (self : DHLink) : DHLink :=
  mkDHLink (_robot self) (_sigma self) (_theta self) (_d self) v (_a self)
    (_mdh self) (_offset self) (_flip self) (_qlim self) (_m self)
    (_r self) (_I self) (_Jm self) (_B self) (_Tc self) (_G self) .

Definition set_a (v : float) (self : DHLink) : DHLink :=
  mkDHLink (_robot self) (_sigma self) (_theta self) (_d self)
    (_alpha self) v (_mdh self) (_offset self) (_flip self) (_qlim self)
    (_m self) (_r self) (_I self) (_Jm self) (_B self) (_Tc self) (_G self)
    .

Definition set_mdh (v : Z) (self : DHLink) : DHLink :=
  mkDHLink (_robot self) (_sigma self) (_theta self) (_d self)
    (_alpha self) (_a self) v (_offset self) (_flip self) (_qlim self)
    (_m self) (_r self) (_I self) (_Jm self) (_B self) (_Tc self) (_G self)
    .

Definition set_offset (v : float) (self : DHLink) : DHLink :=
  mkDHLink (_robot self) (_sigma self) (_theta self) (_d self)
    (_alpha self) (_a self) (_mdh self) v (_flip self) (_qlim self)
    (_m self) (_r self) (_I self) (_Jm self) (_B self) (_Tc self) (_G self)
    .

Definition set_flip (v : bool) (self : DHLink) : DHLink :=
  mkDHLink (_robot self) (_sigma self) (_theta self) (_d self)
    (_alpha self) (_a self) (_mdh self) (_offset self) v (_qlim self)
    (_m self) (_r self) (_I self) (_Jm self) (_B self) (_Tc self) (_G self)
    .

Definition set_qlim (v : list float) (self : DHLink) : DHLink :=
  mkDHLink (_robot self) (_sigma self) (_theta self) (_d self)
    (_alpha self) (_a self) (_mdh self) (_offset self) (_flip self) v
    (_m self) (_r self) (_I self) (_Jm self) (_B self) (_Tc self) (_G self)
    .

Definition set_m (v : float) (self : DHLink) : DHLink :=
  mkDHLink (_robot self) (_sigma self) (_theta self) (_d self)
    (_alpha self) (_a self) (_mdh self) (_offset self) (_flip self)
    (_qlim self) v (_r self) (_I self) (_Jm self) (_B self) (_Tc self)
    (_G self) .

Definition set_r (v : list float) (self : DHLink) : DHLink :=
  mkDHLink (_robot self) (_sigma self) (_theta self) (_d self)
    (_alpha self) (_a self) (_mdh self) (_offset self) (_flip self)
    (_qlim self) (_m self) v (_I self) (_Jm self) (_B self) (_Tc self)
    (_G self) .

Definition set_I (v : pyval) (self : DHLink) : DHLink :=
  mkDHLink (_robot self) (_sigma self) (_theta self) (_d self)
    (_alpha self) (_a self) (_mdh self) (_offset self) (_flip self)
    (_qlim self) (_m self) (_r self) v (_Jm self) (_B self) (_Tc self)
    (_G self) .

Definition set_Jm (v : float) (self : DHLink) : DHLink :=
  mkDHLink (_robot self) (_sigma self) (_theta self) (_d self)
    (_alpha self) (_a self) (_mdh self) (_offset self) (_flip self)
    (_qlim self) (_m self) (_r self) (_I self) v (_B self) (_Tc self)
    (_G self) .

Definition set_B (v : float) (self : DHLink) : DHLink :=
  mkDHLink (_robot self) (_sigma self) (_theta self) (_d self)
    (_alpha self) (_a self) (_mdh self) (_offset self) (_flip self)
    (_qlim self) (_m self) (_r self) (_I self) (_Jm self) v (_Tc self)
    (_G self) .

Definition set_Tc (v : list float) (self : DHLink) : DHLink :=
  mkDHLink (_robot self) (_sigma self) (_theta self) (_d self)
    (_alpha self) (_a self) (_mdh self) (_offset self) (_flip self)
    (_qlim self) (_m self) (_r self) (_I self) (_Jm self) (_B self) v
    (_G self) .

Definition set_G (v : float) (self : DHLink) : DHLink :=
  mkDHLink (_robot self) (_sigma self) (_theta self) (_d self)
    (_alpha self) (_a self) (_mdh self) (_offset self) (_flip self)
    (_qlim self) (_m self) (_r self) (_I self) (_Jm self) (_B self)
    (_Tc self) v.

(** ** The store and the monad of methods

    Links are objects: setters rebind attributes in place, [copy.copy]
    makes a second object, and a link may refer to the robot that owns it.
    A [world] holds the link objects by location and, for each robot, what
    a link does to it. *)

(** Modelled from the spec: [DHRobot] is not part of the sources; a link
    only ever calls [dynchanged()] on it, a no-argument callback, so all
    that is kept of a robot is the number of such calls it has received. *)
Record world : Type := mkWorld {
  links : gmap loc DHLink;
  dynchanged_calls : gmap loc nat
}.

(** How often [robot.dynchanged()] has been called. *)
Definition calls (w : world) (robot : loc) : nat :=
  default O (dynchanged_calls w !! robot).

(** A method body: it runs in a world, returns or raises, and leaves a
    world behind in both cases. *)
Definition M (A : Type) : Type := world -> result A * world.

#[global] Instance M_ret : MRet M := fun A a w => (Return a, w).
#[global] Instance M_bind : MBind M := fun A B f c w =>
  match c w with
  | (Raise e, w') => (Raise e, w')
  | (Return a, w') => f a w'
  end.

Definition raise {A : Type} (e : exn) : M A := fun w => (Raise e, w).

(** A computation without effects, run inside a method. *)
Definition lift {A : Type} (c : result A) : M A := fun w => (c, w).

(** [self.x] *)
Definition getattr {A : Type} (self : loc) (x : DHLink -> A) : M A := fun w =>
  match links w !! self with
  | Some L => (Return (x L), w)
  | None => (Raise ReferenceError, w)
  end.

(** [self.x = v], given as the rebinding [set_x v]. *)
Definition setattr (self : loc) (upd : DHLink -> DHLink) : M unit := fun w =>
  match links w !! self with
  | Some L =>
      (Return tt, mkWorld (<[self := upd L]> (links w)) (dynchanged_calls w))
  | None => (Raise ReferenceError, w)
  end.

(** [robot.dynchanged()] *)
Definition dynchanged (robot : loc) : M unit := fun w =>
  (Return tt,
   mkWorld (links w) (<[robot := S (calls w robot)]> (dynchanged_calls w))).

(** The decorator [_listen_dyn]: tell the owning robot, if there is one,
    then run the wrapped setter. *)
Definition _listen_dyn {A : Type} (func : loc -> A -> M unit)
    (self : loc) (arg : A) : M unit :=
  robot ← getattr self _robot;
  _ ← match robot with
      | Some r => dynchanged r
      | None => mret tt
      end;
  func self arg.

(** ** Argument checks

    Modelled from the spec: [getvector], [isscalar], [isvector] and
    [ismatrix] come from [spatialmath.base.argcheck], which is not part of
    the sources.  A vector is a list or a one-dimensional array of the
    requested length, or a two-dimensional array that is one row or one
    column of that length; a matrix is a two-dimensional array of the
    requested shape.  [getvector] returns the elements of a vector as a
    one-dimensional array and takes a scalar for a list of one element; it
    compares the length of a list only when the list is not empty. *)

Definition isscalar (x : pyval) : bool :=
  match x with
  | Scalar _ => true
  | _ => false
  end.

(** A two-dimensional array of shape [(1, dim)] or [(dim, 1)]. *)
Definition is_row_or_column (rows : list (list float)) (dim : nat) : bool :=
  Nat.eqb (length rows) 1
  && forallb (fun row => Nat.eqb (length row) dim) rows
  || Nat.eqb (length rows) dim
     && forallb (fun row => Nat.eqb (length row) 1) rows.

Definition isvector (v : pyval) (dim : nat) : bool :=
  match v with
  | PyList l => Nat.eqb (length l) dim
  | Vector l => Nat.eqb (length l) dim
  | Matrix rows => is_row_or_column rows dim
  | _ => false
  end.

Definition ismatrix (m : pyval) (shape : nat * nat) : bool :=
  match m with
  | Matrix rows =>
      Nat.eqb (length rows) (fst shape)
      && forallb (fun row => Nat.eqb (length row) (snd shape)) rows
  | _ => false
  end.

Definition getvector (v : pyval) (dim : nat) : result (list float) :=
  match v with
  | Scalar x =>
      if Nat.eqb dim 1 then Return [x]
      else Raise (ValueError "incorrect vector length")
  | PyList l =>
      if negb (Nat.eqb (length l) 0) && negb (Nat.eqb (length l) dim)
      then Raise (ValueError "incorrect vector length")
      else Return l
  | Vector l =>
      if Nat.eqb (length l) dim then Return l
      else Raise (ValueError "incorrect vector length")
  | Matrix rows =>
      if is_row_or_column rows dim then Return (concat rows)
      else Raise (ValueError "incorrect vector length")
  | Tensor _ => Raise (ValueError "incorrect vector length")
  end.

(** ** Array operations used by the inertia setter *)

(** [np.abs] on a float. *)
Definition np_abs (x : float) : float := PrimFloat.abs x.

(** [m.T] *)
Fixpoint transpose (rows : list (list float)) : list (list float) :=
  match rows with
  | [] => []
  | [row] => map (fun x => [x]) row
  | row :: rest => zip_with cons row (transpose rest)
  end.

(** [a - b], elementwise on arrays of one shape. *)
Definition np_sub (a b : list (list float)) : list (list float) :=
  zip_with (zip_with PrimFloat.sub) a b.

(** [np.abs(a)] *)
Definition np_abs_array (a : list (list float)) : list (list float) :=
  map (map np_abs) a.

(** [a > c] *)
Definition np_gt (a : list (list float)) (c : float) : list (list bool) :=
  map (map (fun x => (c <? x)%float)) a.

(** [np.any(b)] *)
Definition np_any (b : list (list bool)) : bool :=
  existsb (existsb id) b.

(** [v.reshape(r, c)]: the elements of [v], row by row. *)
Fixpoint reshape (r c : nat) (v : list float) : list (list float) :=
  match r with
  | O => []
  | S r' => take c v :: reshape r' c (drop c v)
  end.

(** [np.diag(v)] for a one-dimensional [v]. *)
Definition np_diag (v : list float) : list (list float) :=
  imap (fun i x =>
          replicate i 0%float ++ x :: replicate (length v - S i) 0%float) v.

(** [np.any(np.abs(I_new - I_new.T) > 1e-8)] *)
#[warnings="-inexact-float"]
Definition not_symmetric (I_new : list (list float)) : bool :=
  np_any (np_gt (np_abs_array (np_sub I_new (transpose I_new))) 1e-8%float).

(** The payload of an argument whose kind has already been checked. *)
Definition scalar_of (x : pyval) : float :=
  match x with
  | Scalar f => f
  | _ => 0%float
  end.

Definition elems_of (x : pyval) : list float :=
  match x with
  | PyList v => v
  | Vector v => v
  | _ => []
  end.

Definition rows_of (x : pyval) : list (list float) :=
  match x with
  | Matrix rows => rows
  | _ => []
  end.

(** [x[k]]: an element of a list or of a one-dimensional array, a row of a
    two-dimensional array, a plane of a three-dimensional one. *)
Definition item (x : pyval) (k : nat) : result pyval :=
  match x with
  | Scalar _ => Raise (TypeError "object is not subscriptable")
  | PyList v => e ← getitem v k; mret (Scalar e)
  | Vector v => e ← getitem v k; mret (Scalar e)
  | Matrix rows =>
      match nth_error rows k with
      | Some row => Return (Vector row)
      | None => Raise (IndexError "index out of bounds")
      end
  | Tensor planes =>
      match nth_error planes k with
      | Some plane => Return (Matrix plane)
      | None => Raise (IndexError "index out of bounds")
      end
  end.

(** [np.array(items)] for rows of items of one kind: numbers give a
    two-dimensional array, one-dimensional arrays a three-dimensional one. *)
Definition np_array (items : list (list pyval)) : pyval :=
  if forallb (forallb isscalar) items
  then Matrix (map (map scalar_of) items)
  else Tensor (map (map elems_of) items).

(** [x.reshape(3, 3)]; a list has no such method. *)
Definition reshape33 (x : pyval) : result (list (list float)) :=
  match x with
  | Vector v => Return (reshape 3 3 v)
  | Matrix rows => Return (reshape 3 3 (concat rows))
  | _ => Raise (AttributeError "object has no attribute 'reshape'")
  end.

(** The diagonal of a two-dimensional array. *)
Definition diagonal (rows : list (list float)) : list float :=
  omap id (imap (fun i row => row !! i) rows).

(** [np.diag(x)]: the diagonal matrix of a list or one-dimensional array,
    the diagonal of a two-dimensional array. *)
Definition np_diag_of (x : pyval) : pyval :=
  match x with
  | PyList v => Matrix (np_diag v)
  | Vector v => Matrix (np_diag v)
  | Matrix rows => Vector (diagonal rows)
  | other => other
  end.

(** Python truthiness of an integer, as in [if self.sigma]. *)
Definition truthy (n : Z) : bool := negb (n =? 0).

(** [try: body except ValueError: handler] *)
Definition try_except_ValueError {A : Type} (body handler : result A) :
    result A :=
  match body with
  | Raise (ValueError _) => handler
  | other => other
  end.

(** ** Setters

    Each [x_body] is the function under [@x.setter]; the setter itself is
    the body under the decorators written above it in the source. *)

Definition d_body (self : loc) (d_new : float) : M unit :=
  sigma ← getattr self _sigma;
  if truthy sigma && negb (d_new =? 0)%float then
    raise (ValueError "f is not valid for prismatic joints")
  else setattr self (set_d d_new).
Definition d_setter := _listen_dyn d_body.

Definition alpha_body (self : loc) (alpha_new : float) : M unit :=
  setattr self (set_alpha alpha_new).
Definition alpha_setter := _listen_dyn alpha_body.

Definition theta_body (self : loc) (theta_new : float) : M unit :=
  sigma ← getattr self _sigma;
  if negb (truthy sigma) && negb (theta_new =? 0)%float then
    raise (ValueError "theta is not valid for revolute joints")
  else setattr self (set_theta theta_new).
Definition theta_setter := _listen_dyn theta_body.

Definition a_body (self : loc) (a_new : float) : M unit :=
  setattr self (set_a a_new).
Definition a_setter := _listen_dyn a_body.

Definition sigma_body (self : loc) (sigma_new : Z) : M unit :=
  setattr self (set_sigma sigma_new).
Definition sigma_setter := _listen_dyn sigma_body.

(** [int(mdh_new)] of a Python bool is [0] or [1]. *)
Definition mdh_body (self : loc) (mdh_new : bool) : M unit :=
  setattr self (set_mdh (Z.b2z mdh_new)).
Definition mdh_setter := _listen_dyn mdh_body.

Definition offset_setter (self : loc) (offset_new : float) : M unit :=
  setattr self (set_offset offset_new).

Definition qlim_setter (self : loc) (qlim_new : pyval) : M unit :=
  v ← lift (getvector qlim_new 2);
  setattr self (set_qlim v).

Definition flip_setter (self : loc) (flip_new : bool) : M unit :=
  setattr self (set_flip flip_new).

Definition m_body (self : loc) (m_new : float) : M unit :=
  setattr self (set_m m_new).
Definition m_setter := _listen_dyn m_body.

Definition r_body (self : loc) (r_new : pyval) : M unit :=
  v ← lift (getvector r_new 3);
  setattr self (set_r v).
Definition r_setter := _listen_dyn r_body.

Definition I_body (self : loc) (I_new : pyval) : M unit :=
  I_new ←
    (if ismatrix I_new (3, 3)%nat then
       (* 3x3 matrix passed *)
       if not_symmetric (rows_of I_new) then
         raise (ValueError "3x3 matrix is not symmetric")
       else mret I_new
     else if isvector I_new 9 then
       (* 3x3 matrix passed as a 1d vector *)
       I_new ← lift (reshape33 I_new);
       if not_symmetric I_new then
         raise (ValueError "3x3 matrix is not symmetric")
       else mret (Matrix I_new)
     else if isvector I_new 6 then
       (* 6-vector passed, moments and products of inertia,
          [Ixx Iyy Izz Ixy Iyz Ixz]; the elements are read in the order
          in which the array literal names them *)
       i0 ← lift (item I_new 0);
       i3 ← lift (item I_new 3);
       i5 ← lift (item I_new 5);
       i1 ← lift (item I_new 1);
       i4 ← lift (item I_new 4);
       i2 ← lift (item I_new 2);
       mret (np_array [[i0; i3; i5];
                       [i3; i1; i4];
                       [i5; i4; i2]])
     else if isvector I_new 3 then
       (* 3-vector passed, moments of inertia [Ixx Iyy Izz] *)
       mret (np_diag_of I_new)
     else
       raise (ValueError "invalid shape passed: must be (3,3), (6,), (3,)"));
  setattr self (set_I I_new).
Definition I_setter := _listen_dyn I_body.

Definition Jm_body (self : loc) (Jm_new : float) : M unit :=
  setattr self (set_Jm Jm_new).
Definition Jm_setter := _listen_dyn Jm_body.

Definition B_body (self : loc) (B_new : pyval) : M unit :=
  if isscalar B_new then setattr self (set_B (scalar_of B_new))
  else raise (TypeError "B must be a scalar").
Definition B_setter := _listen_dyn B_body.

Definition Tc_body (self : loc) (Tc_new : pyval) : M unit :=
  Tc_new ← lift (try_except_ValueError
                   (* sets Coulomb friction parameters to [F -F] *)
                   (Tc ← getvector Tc_new 1;
                    t0 ← getitem Tc 0;
                    mret [t0; (- t0)%float])
                   (* [FP FM] sets Coulomb friction to [FP FM] *)
                   (getvector Tc_new 2));
  setattr self (set_Tc Tc_new).
Definition Tc_setter := _listen_dyn Tc_body.

Definition G_body (self : loc) (G_new : float) : M unit :=
  setattr self (set_G G_new).
Definition G_setter := _listen_dyn G_body.

(** ** Construction *)

(** A new object with [self._robot = None]; no other attribute has been
    assigned yet, and none is read before [__init__] assigns it. *)
Definition blank : DHLink :=
  mkDHLink None 0 0 0 0 0 0 0 false [] 0 [] (Matrix []) 0 0 [] 0.

Definition new_object : M loc := fun w =>
  let self := fresh (dom (links w)) in
  (Return self, mkWorld (<[self := blank]> (links w)) (dynchanged_calls w)).

(** The dynamic parameters, which the presets pass on as [**kwargs]. *)
Record kwargs : Type := mkKwargs {
  kw_m : float;
  kw_r : pyval;
  kw_I : pyval;
  kw_Jm : float;
  kw_B : pyval;
  kw_Tc : pyval;
  kw_G : float
}.

(** [np.zeros(n)] and [np.zeros((3, 3))] *)
Definition zeros (n : nat) : list float := replicate n 0%float.
Definition zeros33 : list (list float) := replicate 3 (zeros 3).

(** The defaults of [DHLink.__init__]. *)
Definition kwargs_default : kwargs :=
  mkKwargs 0 (Vector (zeros 3)) (Matrix zeros33) 0 (Scalar 0)
    (Vector (zeros 2)) 1.

(** [DHLink.__init__] *)
Definition DHLink_init (d alpha theta a : float) (sigma : Z) (mdh : bool)
    (offset : float) (qlim : pyval) (flip : bool) (kw : kwargs) : M loc :=
  self ← new_object;
  (* Kinematic parameters *)
  _ ← sigma_setter self sigma;
  _ ← theta_setter self theta;
  _ ← d_setter self d;
  _ ← alpha_setter self alpha;
  _ ← a_setter self a;
  _ ← mdh_setter self mdh;
  _ ← offset_setter self offset;
  _ ← flip_setter self flip;
  _ ← qlim_setter self qlim;
  (* Dynamic Parameters *)
  _ ← m_setter self (kw_m kw);
  _ ← r_setter self (kw_r kw);
  _ ← I_setter self (kw_I kw);
  _ ← Jm_setter self (kw_Jm kw);
  _ ← B_setter self (kw_B kw);
  _ ← Tc_setter self (kw_Tc kw);
  _ ← G_setter self (kw_G kw);
  mret self.

Definition RevoluteDH (d a alpha offset : float) (qlim : pyval) (flip : bool)
    (kw : kwargs) : M loc :=
  let theta := 0%float in
  let sigma := 0 in
  let mdh := false in
  DHLink_init d alpha theta a sigma mdh offset qlim flip kw.

Definition PrismaticDH (theta a alpha offset : float) (qlim : pyval)
    (flip : bool) (kw : kwargs) : M loc :=
  let d := 0%float in
  let sigma := 1 in
  let mdh := false in
  DHLink_init d alpha theta a sigma mdh offset qlim flip kw.

Definition RevoluteMDH (d a alpha offset : float) (qlim : pyval) (flip : bool)
    (kw : kwargs) : M loc :=
  let theta := 0%float in
  let sigma := 0 in
  let mdh := true in
  DHLink_init d alpha theta a sigma mdh offset qlim flip kw.

Definition PrismaticMDH (theta a alpha offset : float) (qlim : pyval)
    (flip : bool) (kw : kwargs) : M loc :=
  let d := 0%float in
  let sigma := 1 in
  let mdh := true in
  DHLink_init d alpha theta a sigma mdh offset qlim flip kw.

(** ** Methods that only read *)

(** The 4x4 array that [SE3(T, check=False)] wraps. *)
Definition SE3 : Type := list (list float).

Section Transform.

(** [np.sin] and [np.cos] on floats.  Links with symbolic parameters are
    outside this model, so [_sin] and [_cos] always take the numeric
    branch. *)
Variables np_sin np_cos : float -> float.

Definition _cos (theta : float) : float := np_cos theta.
Definition _sin (theta : float) : float := np_sin theta.

(** [DHLink.A(self, q)] *)
Definition A (self : DHLink) (q : float) : SE3 :=
  let sa := _sin (_alpha self) in
  let ca := _cos (_alpha self) in
  let q := if _flip self then (- q + _offset self)%float
           else (q + _offset self)%float in
  let '(st, ct, d) :=
    if _sigma self =? 0 then
      (* revolute *)
      (_sin q, _cos q, _d self)
    else
      (* prismatic *)
      (_sin (_theta self), _cos (_theta self), q) in
  if _mdh self =? 0 then
    (* standard DH *)
    [[ct; - st * ca; st * sa; _a self * ct];
     [st; ct * ca; - ct * sa; _a self * st];
     [0; sa; ca; d];
     [0; 0; 0; 1]]%float
  else
    (* modified DH *)
    [[ct; - st; 0; _a self];
     [st * ca; ct * ca; - sa; - sa * d];
     [st * sa; ct * sa; ca; ca * d];
     [0; 0; 0; 1]]%float.

End Transform.

(** [DHLink.islimit(self, q)]; [or] evaluates its second operand only when
    the first is false. *)
Definition islimit (self : DHLink) (q : float) : result bool :=
  lo ← getitem (_qlim self) 0;
  if (q <? lo)%float then mret true
  else
    hi ← getitem (_qlim self) 1;
    if (hi <? q)%float then mret true else mret false.

Definition isrevolute (self : DHLink) : bool :=
  if negb (truthy (_sigma self)) then true else false.

Definition isprismatic (self : DHLink) : bool :=
  if truthy (_sigma self) then true else false.

(** [DHLink.friction(self, qd, coulomb=True)] *)
Definition friction (self : DHLink) (qd : float) (coulomb : bool) :
    result float :=
  let tau := (_B self * np_abs (_G self) * qd)%float in
  tau ← (if coulomb then
           if (0 <? qd)%float then
             t ← getitem (_Tc self) 0; mret (tau + t)%float
           else if (qd <? 0)%float then
             t ← getitem (_Tc self) 1; mret (tau + t)%float
           else mret tau
         else mret tau);
  (* Scale up by gear ratio *)
  mret (- np_abs (_G self) * tau)%float.

(** ** Copying *)

(** [copy.copy(self)]: a new object with the attributes of [self]. *)
Definition _copy (self : loc) : M loc := fun w =>
  match links w !! self with
  | Some L =>
      let link := fresh (dom (links w)) in
      (Return link, mkWorld (<[link := L]> (links w)) (dynchanged_calls w))
  | None => (Raise ReferenceError, w)
  end.

(** [DHLink.nofriction(self, coulomb=True, viscous=False)]; the zero
    Coulomb pair is given as the list [[0.0, 0.0]]. *)
Definition nofriction (self : loc) (coulomb viscous : bool) : M loc :=
  link ← _copy self;
  _ ← (if viscous then B_setter link (Scalar 0) else mret tt);
  _ ← (if coulomb then Tc_setter link (PyList [0; 0]%float) else mret tt);
  mret link.

(** ** Properties and assignment *)


(** An assignment [link.x = v], one constructor per property. *)
Inductive assignment : Type :=
| Assign_d (v : float)
| Assign_alpha (v : float)
| Assign_theta (v : float)
| Assign_a (v : float)
| Assign_sigma (v : Z)
| Assign_mdh (v : bool)
| Assign_offset (v : float)
| Assign_qlim (v : pyval)
| Assign_flip (v : bool)
| Assign_m (v : float)
| Assign_r (v : pyval)
| Assign_I (v : pyval)
| Assign_Jm (v : float)
| Assign_B (v : pyval)
| Assign_Tc (v : pyval)
| Assign_G (v : float).

(** Python runs the setter of the property. *)
Definition assign (self : loc) (s : assignment) : M unit :=
  match s with
  | Assign_d v => d_setter self v
  | Assign_alpha v => alpha_setter self v
  | Assign_theta v => theta_setter self v
  | Assign_a v => a_setter self v
  | Assign_sigma v => sigma_setter self v
  | Assign_mdh v => mdh_setter self v
  | Assign_offset v => offset_setter self v
  | Assign_qlim v => qlim_setter self v
  | Assign_flip v => flip_setter self v
  | Assign_m v => m_setter self v
  | Assign_r v => r_setter self v
  | Assign_I v => I_setter self v
  | Assign_Jm v => Jm_setter self v
  | Assign_B v => B_setter self v
  | Assign_Tc v => Tc_setter self v
  | Assign_G v => G_setter self v
  end.

(** The function under the decorators of that setter. *)
Definition assign_body (self : loc) (s : assignment) : M unit :=
  match s with
  | Assign_d v => d_body self v
  | Assign_alpha v => alpha_body self v
  | Assign_theta v => theta_body self v
  | Assign_a v => a_body self v
  | Assign_sigma v => sigma_body self v
  | Assign_mdh v => mdh_body self v
  | Assign_offset v => offset_setter self v
  | Assign_qlim v => qlim_setter self v
  | Assign_flip v => flip_setter self v
  | Assign_m v => m_body self v
  | Assign_r v => r_body self v
  | Assign_I v => I_body self v
  | Assign_Jm v => Jm_body self v
  | Assign_B v => B_body self v
  | Assign_Tc v => Tc_body self v
  | Assign_G v => G_body self v
  end.

(** * Vocabulary of the specification *)

Inductive JointType : Type := Revolute | Prismatic.
Inductive Convention : Type := Standard | Modified.

Definition jointType (self : DHLink) : JointType :=
  if isrevolute self then Revolute else Prismatic.

(** [mdh] is true for the modified convention. *)
Definition convention (self : DHLink) : Convention :=
  if truthy (_mdh self) then Modified else Standard.

Section TransformSpec.

Variables sin cos : float -> float.

(** The algorithm of the transform engine, step by step as the
    specification gives it. *)
Definition computeTransform_spec (record : DHLink) (q : float) : SE3 :=
  let sa := sin (_alpha record) in
  let ca := cos (_alpha record) in
  let qAdj := if _flip record then (- q + _offset record)%float
              else (q + _offset record)%float in
  let st := match jointType record with
            | Revolute => sin qAdj
            | Prismatic => sin (_theta record)
            end in
  let ct := match jointType record with
            | Revolute => cos qAdj
            | Prismatic => cos (_theta record)
            end in
  let dEff := match jointType record with
              | Revolute => _d record
              | Prismatic => qAdj
              end in
  let a := _a record in
  match convention record with
  | Standard =>
      [[ct; - st * ca; st * sa; a * ct];
       [st; ct * ca; - ct * sa; a * st];
       [0; sa; ca; dEff];
       [0; 0; 0; 1]]%float
  | Modified =>
      [[ct; - st; 0; a];
       [st * ca; ct * ca; - sa; - sa * dEff];
       [st * sa; ct * sa; ca; ca * dEff];
       [0; 0; 0; 1]]%float
  end.

End TransformSpec.

(** Entry [(i, j)] of a two-dimensional array. *)
Definition entry (rows : list (list float)) (i j : nat) : float :=
  nth j (nth i rows []) 0%float.

(** The rotation block and the translation of a transform. *)
Definition rotation (T : SE3) : list (list float) := map (take 3) (take 3 T).
Definition translation (T : SE3) : list float :=
  map (fun row => nth 3 row 0%float) (take 3 T).

(** Numeric equality of two arrays, entry by entry; it does not tell the
    two zeros apart. *)
Definition array_equal (a b : list (list float)) : bool :=
  Nat.eqb (length a) (length b)
  && forallb id (zip_with (fun ra rb =>
       Nat.eqb (length ra) (length rb)
       && forallb id (zip_with PrimFloat.eqb ra rb)) a b).

Definition identity3 : list (list float) :=
  [[1; 0; 0]; [0; 1; 0]; [0; 0; 1]]%float.

(** The four shapes the inertia setter accepts. *)
Definition accepted_shape (v : pyval) : bool :=
  ismatrix v (3, 3)%nat || isvector v 9 || isvector v 6 || isvector v 3.

(** Every pair of mirrored entries differs by at most [tol]. *)
Definition symmetric_within (tol : float) (rows : list (list float)) : Prop :=
  forall i j : nat, (i < 3)%nat -> (j < 3)%nat ->
    (np_abs (entry rows i j - entry rows j i) <=? tol)%float = true.

(** Python's [x != x], which is true of NaN alone. *)
Definition isnan (x : float) : bool := negb (x =? x)%float.

(** What the symmetry check lets through: every pair of mirrored entries
    differs by at most [tol], or by NaN. *)
Definition symmetric_or_nan (tol : float) (rows : list (list float)) : Prop :=
  forall i j : nat, (i < 3)%nat -> (j < 3)%nat ->
    (np_abs (entry rows i j - entry rows j i) <=? tol)%float = true
    \/ isnan (np_abs (entry rows i j - entry rows j i)) = true.

(** A list or a one-dimensional array. *)
Definition one_dimensional (v : pyval) : bool :=
  match v with
  | PyList _ | Vector _ => true
  | _ => false
  end.

(** Some pair of mirrored entries differs by more than [tol]. *)
Definition asymmetry_exceeds (tol : float) (rows : list (list float)) : Prop :=
  exists i j : nat, (i < 3)%nat /\ (j < 3)%nat /\
    (tol <? np_abs (entry rows i j - entry rows j i))%float = true.

Definition exactly_symmetric (rows : list (list float)) : Prop :=
  forall i j : nat, (i < 3)%nat -> (j < 3)%nat ->
    entry rows i j = entry rows j i.

(** The setters the specification lists as affecting the dynamics. *)
Definition affects_dynamics (s : assignment) : bool :=
  match s with
  | Assign_offset _ | Assign_qlim _ | Assign_flip _ => false
  | _ => true
  end.

(** The world once [self] has been rebound to [upd L]. *)
Definition stored (w : world) (self : loc) (L : DHLink)
    (upd : DHLink -> DHLink) : world :=
  mkWorld (<[self := upd L]> (links w)) (dynchanged_calls w).

(** The world once the owner of [L], if it has one, has been told that the
    dynamics changed. *)
Definition notified (L : DHLink) (w : world) : world :=
  match _robot L with
  | Some r => mkWorld (links w) (<[r := S (calls w r)]> (dynchanged_calls w))
  | None => w
  end.

(** The tolerance of the symmetry check. *)
#[warnings="-inexact-float"]
Definition tolerance : float := 1e-8%float.

(** The friction fields that [nofriction] leaves on the copy. *)
Definition zeroed (coulomb viscous : bool) (L : DHLink) : DHLink :=
  (if coulomb then set_Tc [0; 0]%float else id)
    ((if viscous then set_B 0 else id) L).

(** The link that [__init__] leaves behind when the limits and the dynamic
    parameters are left at their defaults. *)
Definition default_link (d alpha theta a : float) (sigma : Z) (mdh : bool)
    (offset : float) (flip : bool) : DHLink :=
  mkDHLink None sigma theta d alpha a (Z.b2z mdh) offset flip (zeros 2)
    0 (zeros 3) (Matrix zeros33) 0 0 (zeros 2) 1.

(** Polynomials that agree with sine and cosine at zero; they stand in for
    [np.sin] and [np.cos] where a concrete pair of functions is needed. *)
Definition sin_poly (x : float) : float := (x - x * x * x / 6)%float.
Definition cos_poly (x : float) : float := (1 - x * x / 2)%float.

(** A small world for concrete runs: a revolute link at [0], a prismatic
    link at [1], and at [2] a revolute link owned by robot [7], which has
    been told of two changes so far. *)
Definition revolute_link : DHLink := default_link 2 0 0 1 0 false 0 false.
Definition prismatic_link : DHLink := default_link 0 0 0.5 1 1 false 0 false.
Definition owned_link : DHLink :=
  mkDHLink (Some 7%nat) 0 0 2 0 1 0 0 false (zeros 2)
    0 (zeros 3) (Matrix zeros33) 0 0 (zeros 2) 1.
Definition small_world : world :=
  mkWorld (<[0%nat := revolute_link]>
             (<[1%nat := prismatic_link]> {[ 2%nat := owned_link ]}))
          {[ 7%nat := 2%nat ]}.

(** * Summaries of the setters

    What an assignment does to the link it is made on, as a function of
    the link alone.  [assign_run] below shows that the setters compute
    exactly this. *)

(** The array the inertia setter stores for [I_new], or what it raises. *)
Definition checked_inertia (I_new : pyval) : result pyval :=
  if ismatrix I_new (3, 3)%nat then
    if not_symmetric (rows_of I_new) then
      Raise (ValueError "3x3 matrix is not symmetric")
    else Return I_new
  else if isvector I_new 9 then
    rows ← reshape33 I_new;
    if not_symmetric rows then
      Raise (ValueError "3x3 matrix is not symmetric")
    else Return (Matrix rows)
  else if isvector I_new 6 then
    i0 ← item I_new 0;
    i3 ← item I_new 3;
    i5 ← item I_new 5;
    i1 ← item I_new 1;
    i4 ← item I_new 4;
    i2 ← item I_new 2;
    mret (np_array [[i0; i3; i5]; [i3; i1; i4]; [i5; i4; i2]])
  else if isvector I_new 3 then Return (np_diag_of I_new)
  else Raise (ValueError "invalid shape passed: must be (3,3), (6,), (3,)").

(** The pair the Coulomb setter stores for [Tc_new], or what it raises. *)
Definition checked_Tc (Tc_new : pyval) : result (list float) :=
  try_except_ValueError
    (Tc ← getvector Tc_new 1; t0 ← getitem Tc 0; mret [t0; (- t0)%float])
    (getvector Tc_new 2).

(** The link after the assignment [s], or what the assignment raises. *)
Definition assigned (s : assignment) (L : DHLink) : result DHLink :=
  match s with
  | Assign_d v =>
      if truthy (_sigma L) && negb (v =? 0)%float
      then Raise (ValueError "f is not valid for prismatic joints")
      else Return (set_d v L)
  | Assign_alpha v => Return (set_alpha v L)
  | Assign_theta v =>
      if negb (truthy (_sigma L)) && negb (v =? 0)%float
      then Raise (ValueError "theta is not valid for revolute joints")
      else Return (set_theta v L)
  | Assign_a v => Return (set_a v L)
  | Assign_sigma v => Return (set_sigma v L)
  | Assign_mdh v => Return (set_mdh (Z.b2z v) L)
  | Assign_offset v => Return (set_offset v L)
  | Assign_qlim v => x ← getvector v 2; mret (set_qlim x L)
  | Assign_flip v => Return (set_flip v L)
  | Assign_m v => Return (set_m v L)
  | Assign_r v => x ← getvector v 3; mret (set_r x L)
  | Assign_I v => x ← checked_inertia v; mret (set_I x L)
  | Assign_Jm v => Return (set_Jm v L)
  | Assign_B v =>
      if isscalar v then Return (set_B (scalar_of v) L)
      else Raise (TypeError "B must be a scalar")
  | Assign_Tc v => x ← checked_Tc v; mret (set_Tc x L)
  | Assign_G v => Return (set_G v L)
  end.

(** A sequence of assignments, stopping at the first that raises. *)
Fixpoint assigned_all (ss : list assignment) (L : DHLink) : result DHLink :=
  match ss with
  | [] => Return L
  | s :: ss' => L' ← assigned s L; assigned_all ss' L'
  end.

(** The same sequence as statements on the object at [self], followed by
    [k]. *)
Fixpoint assign_all_then {A : Type} (self : loc) (ss : list assignment)
    (k : M A) : M A :=
  match ss with
  | [] => k
  | s :: ss' => _ ← assign self s; assign_all_then self ss' k
  end.

(** The assignments of [DHLink.__init__], in its order. *)
Definition init_assignments (d alpha theta a : float) (sigma : Z) (mdh : bool)
    (offset : float) (qlim : pyval) (flip : bool) (kw : kwargs) :
    list assignment :=
  [Assign_sigma sigma; Assign_theta theta; Assign_d d; Assign_alpha alpha;
   Assign_a a; Assign_mdh mdh; Assign_offset offset; Assign_flip flip;
   Assign_qlim qlim; Assign_m (kw_m kw); Assign_r (kw_r kw);
   Assign_I (kw_I kw); Assign_Jm (kw_Jm kw); Assign_B (kw_B kw);
   Assign_Tc (kw_Tc kw); Assign_G (kw_G kw)].

(** The shape every array attribute has once its setter has run: two
    limits, three coordinates of the centre of mass, two Coulomb torques
    and a 3x3 inertia that passes the symmetry check. *)
Definition well_formed (L : DHLink) : bool :=
  Nat.eqb (length (_qlim L)) 2
  && Nat.eqb (length (_r L)) 3
  && Nat.eqb (length (_Tc L)) 2
  && ismatrix (_I L) (3, 3)%nat
  && negb (not_symmetric (rows_of (_I L))).

(** The kinematic constraint the [theta] and [d] setters check. *)
Definition constrained (L : DHLink) : bool :=
  negb (negb (truthy (_sigma L)) && negb (_theta L =? 0)%float)
  && negb (truthy (_sigma L) && negb (_d L =? 0)%float).

(** The world in which [assign self s] runs its setter body. *)
Definition heard (s : assignment) (L : DHLink) (w : world) : world :=
  if affects_dynamics s then notified L w else w.

(** A second owned link, prismatic, for concrete runs. *)
Definition owned_prismatic_link : DHLink :=
  mkDHLink (Some 7%nat) 1 0.5 0 0 1 0 0 false [-1; 1]%float
    0 (zeros 3) (Matrix zeros33) 0 0.25 [1; -1]%float (-3).

(** A world that holds this link alone. *)
Definition friction_world : world :=
  mkWorld {[ 4%nat := owned_prismatic_link ]} {[ 7%nat := 2%nat ]}.

(** A 3x3 array with a NaN above the diagonal and a one below it. *)
Definition nan_matrix : list (list float) :=
  [[0; nan; 0]; [1; 0; 0]; [0; 0; 0]]%float.

(** * Properties *)

(** ** Facts about binary64 comparison and subtraction *)

Module FloatFacts.

Lemma ltb_irrefl (x : float) : (x <? x)%float = false.
Proof.
  rewrite ltb_spec. unfold SFltb.
  destruct (Prim2SF x) as [s| s| |s m e]; try reflexivity.
  - destruct s; reflexivity.
  - simpl.
    destruct s; rewrite Z.compare_refl, Pos.compare_cont_refl; reflexivity.
Qed.

Lemma SFcompare_swap (x y : spec_float) (c : comparison) :
  SFcompare x y = Some c -> SFcompare y x = Some (CompOpp c).
Proof.
  destruct x as [s1|s1| |s1 m1 e1], y as [s2|s2| |s2 m2 e2]; simpl;
    try discriminate;
    try (intros [= <-]; try destruct s1; try destruct s2; reflexivity).
  intros [= <-]. f_equal.
  destruct s1, s2; simpl; try reflexivity;
    rewrite (Z.compare_antisym e1 e2);
    destruct (e1 ?= e2)%Z; simpl; try reflexivity;
    rewrite (Pos.compare_cont_antisym m1 m2 Eq); reflexivity.
Qed.

Lemma leb_not_gt (x y : float) :
  (x <=? y)%float = true -> (y <? x)%float = false.
Proof.
  rewrite leb_spec, ltb_spec. unfold SFleb, SFltb.
  destruct (SFcompare (Prim2SF x) (Prim2SF y)) as [c|] eqn:E; [|discriminate].
  rewrite (SFcompare_swap _ _ _ E). destruct c; simpl; congruence.
Qed.

(** [x - x] is a zero, or NaN when [x] is infinite or NaN. *)
Lemma SFsub_diag (s : spec_float) :
  SFabs (SF64sub s s) = S754_nan \/ SFabs (SF64sub s s) = S754_zero false.
Proof.
  destruct s as [b|b| |b m e]; simpl.
  - right. destruct b; reflexivity.
  - left. destruct b; reflexivity.
  - left. reflexivity.
  - right. unfold SF64sub, SFsub. rewrite Z.sub_diag. reflexivity.
Qed.

Lemma sub_diag_not_gt (x c : float) :
  (c <? 0)%float = false -> (c <? abs (x - x))%float = false.
Proof.
  rewrite !ltb_spec, abs_spec, sub_spec.
  destruct (SFsub_diag (Prim2SF x)) as [-> | ->].
  - intros _. unfold SFltb. destruct (Prim2SF c); reflexivity.
  - intros H. exact H.
Qed.

End FloatFacts.

(** Comparison against a number and subtraction of a float from itself. *)

Lemma not_gt_le_or_nan (c x : float) :
  (c <? x)%float = false ->
  isnan c = false ->
  (x <=? c)%float = true \/ isnan x = true.
Proof.
  unfold isnan. rewrite ltb_spec, leb_spec, !FloatAxioms.eqb_spec.
  unfold SFltb, SFleb, SFeqb.
  destruct (SFcompare (Prim2SF c) (Prim2SF x)) as [cmp|] eqn:E.
  - rewrite (FloatFacts.SFcompare_swap _ _ _ E).
    destruct cmp; simpl; try discriminate; intros _ _; left; reflexivity.
  - intros _.
    destruct (Prim2SF c) as [sc|sc| |sc mc ec],
      (Prim2SF x) as [sx|sx| |sx mx ex];
      simpl in E; try discriminate; simpl;
      try (intros _; right; reflexivity);
      try discriminate.
    all: destruct sc; simpl in E; discriminate.
Qed.

Lemma sub_diag_le_or_nan (x c : float) :
  (0 <=? c)%float = true ->
  (abs (x - x) <=? c)%float = true \/ isnan (abs (x - x)) = true.
Proof.
  unfold isnan. rewrite !leb_spec, !FloatAxioms.eqb_spec, abs_spec, sub_spec.
  destruct (FloatFacts.SFsub_diag (Prim2SF x)) as [-> | ->].
  - intros _. right. reflexivity.
  - intros H. left. exact H.
Qed.

(** ** Running setters *)

Lemma getattr_run {A : Type} (x : DHLink -> A) (w : world) (self : loc)
    (L : DHLink) :
  links w !! self = Some L -> getattr self x w = (Return (x L), w).
Proof. intros H. unfold getattr. rewrite H. reflexivity. Qed.

Lemma setattr_run (upd : DHLink -> DHLink) (w : world) (self : loc)
    (L : DHLink) :
  links w !! self = Some L ->
  setattr self upd w = (Return tt, stored w self L upd).
Proof. intros H. unfold setattr. rewrite H. reflexivity. Qed.

Lemma stored_self (w : world) (self : loc) (L : DHLink)
    (upd : DHLink -> DHLink) :
  links (stored w self L upd) !! self = Some (upd L).
Proof. apply lookup_insert_eq. Qed.

Lemma links_notified (L : DHLink) (w : world) : links (notified L w) = links w.
Proof. unfold notified. destruct (_robot L); reflexivity. Qed.

Lemma listen_dyn_run {A : Type} (func : loc -> A -> M unit) (self : loc)
    (arg : A) (w : world) (L : DHLink) :
  links w !! self = Some L ->
  _listen_dyn func self arg w = func self arg (notified L w).
Proof.
  intros H. unfold _listen_dyn, mbind, M_bind, getattr, notified. rewrite H.
  destruct (_robot L); reflexivity.
Qed.

(** ** Friction *)

(** C1: with Coulomb pair [(p, n)], [friction] returns [-|G| * tau], where
    [tau] is [B * |G| * qd], plus [p] when [qd > 0] or [n] when [qd < 0] if
    Coulomb friction is included, and nothing more when [qd] is zero; for
    [B = 2], [G = -3], the pair [(1, -1)] and [qd = 4] this is [-75]. *)
Theorem friction_formula (self : DHLink) (p n qd : float)
    (includeCoulomb : bool) :
  _Tc self = [p; n] ->
  friction self qd includeCoulomb =
    Return (let viscous := (_B self * np_abs (_G self) * qd)%float in
            let tau := if includeCoulomb then
                         if (0 <? qd)%float then (viscous + p)%float
                         else if (qd <? 0)%float then (viscous + n)%float
                         else viscous
                       else viscous in
            (- np_abs (_G self) * tau)%float)
  /\ (_B self = 2%float -> _G self = (-3)%float -> p = 1%float ->
      n = (-1)%float -> friction self 4 true = Return (-75)%float).
Proof.
  intros HTc. split.
  - unfold friction. rewrite HTc.
    destruct includeCoulomb; [|reflexivity].
    destruct (0 <? qd)%float; [reflexivity|].
    destruct (qd <? 0)%float; reflexivity.
  - intros HB HG -> ->. unfold friction. rewrite HTc, HB, HG. reflexivity.
Qed.

Lemma friction_formula_witness :
  let self := set_G (-3) (set_Tc [1; -1]%float (set_B 2 blank)) in
  _Tc self = [1; -1]%float
  /\ friction self 4 true = Return (-75)%float.
Proof.
  intros self. split; [reflexivity|].
  apply (friction_formula self 1 (-1) 4 true); reflexivity.
Defined.

Lemma bind_run {A B : Type} (c : M A) (f : A -> M B) (w w' : world) (a : A) :
  c w = (Return a, w') -> (c ≫= f) w = f a w'.
Proof. intros H. unfold mbind, M_bind. rewrite H. reflexivity. Qed.

Section Bodies.

Variables (w : world) (self : loc) (L : DHLink).
Hypothesis Hself : links w !! self = Some L.

Lemma d_body_run (d_new : float) :
  d_body self d_new w =
    if truthy (_sigma L) && negb (d_new =? 0)%float
    then (Raise (ValueError "f is not valid for prismatic joints"), w)
    else (Return tt, stored w self L (set_d d_new)).
Proof using Hself.
  unfold d_body. rewrite (bind_run _ _ _ _ _ (getattr_run _sigma _ _ _ Hself)).
  destruct (truthy (_sigma L) && negb (d_new =? 0)%float); [reflexivity|].
  apply setattr_run, Hself.
Qed.

Lemma theta_body_run (theta_new : float) :
  theta_body self theta_new w =
    if negb (truthy (_sigma L)) && negb (theta_new =? 0)%float
    then (Raise (ValueError "theta is not valid for revolute joints"), w)
    else (Return tt, stored w self L (set_theta theta_new)).
Proof using Hself.
  unfold theta_body.
  rewrite (bind_run _ _ _ _ _ (getattr_run _sigma _ _ _ Hself)).
  destruct (negb (truthy (_sigma L)) && negb (theta_new =? 0)%float);
    [reflexivity|].
  apply setattr_run, Hself.
Qed.

Lemma getvector_body_run (v : pyval) (dim : nat)
    (set : list float -> DHLink -> DHLink) :
  (x ← lift (getvector v dim); setattr self (set x)) w =
    match getvector v dim with
    | Raise e => (Raise e, w)
    | Return x => (Return tt, stored w self L (set x))
    end.
Proof using Hself.
  unfold mbind, M_bind, lift.
  destruct (getvector v dim); [reflexivity|]. apply setattr_run, Hself.
Qed.

Lemma B_body_run (B_new : pyval) :
  B_body self B_new w =
    match B_new with
    | Scalar x => (Return tt, stored w self L (set_B x))
    | _ => (Raise (TypeError "B must be a scalar"), w)
    end.
Proof using Hself.
  unfold B_body. destruct B_new; simpl; try reflexivity.
  apply setattr_run, Hself.
Qed.

Lemma lift_bind_run {A B : Type} (c : result A) (k : A -> M B) :
  (x ← lift c; k x) w =
    match c with
    | Raise e => (Raise e, w)
    | Return a => k a w
    end.
Proof. unfold mbind, M_bind, lift. destruct c; reflexivity. Qed.

(** What the [try] statement of the Coulomb setter computes. *)
Lemma Tc_body_run (Tc_new : pyval) :
  Tc_body self Tc_new w =
    match checked_Tc Tc_new with
    | Raise e => (Raise e, w)
    | Return x => (Return tt, stored w self L (set_Tc x))
    end.
Proof using Hself.
  unfold Tc_body. fold (checked_Tc Tc_new). rewrite lift_bind_run.
  destruct (checked_Tc Tc_new); [reflexivity|]. apply setattr_run, Hself.
Qed.

(** What the chain of shape tests of the inertia setter computes. *)
Lemma I_body_run (I_new : pyval) :
  I_body self I_new w =
    match checked_inertia I_new with
    | Raise e => (Raise e, w)
    | Return x => (Return tt, stored w self L (set_I x))
    end.
Proof using Hself.
  unfold I_body, checked_inertia.
  unfold mbind, M_bind, result_bind, lift, raise, mret, M_ret, result_ret.
  destruct (ismatrix I_new (3, 3)%nat).
  { destruct (not_symmetric _); [reflexivity|]. apply setattr_run, Hself. }
  destruct (isvector I_new 9).
  { destruct (reshape33 I_new); [reflexivity|].
    destruct (not_symmetric _); [reflexivity|]. apply setattr_run, Hself. }
  destruct (isvector I_new 6).
  { destruct (item I_new 0); [reflexivity|].
    destruct (item I_new 3); [reflexivity|].
    destruct (item I_new 5); [reflexivity|].
    destruct (item I_new 1); [reflexivity|].
    destruct (item I_new 4); [reflexivity|].
    destruct (item I_new 2); [reflexivity|].
    apply setattr_run, Hself. }
  destruct (isvector I_new 3); [|reflexivity].
  apply setattr_run, Hself.
Qed.

Lemma I_body_matrix (a b c d e f g h i : float) :
  let rows := [[a; b; c]; [d; e; f]; [g; h; i]] in
  I_body self (Matrix rows) w =
    if not_symmetric rows
    then (Raise (ValueError "3x3 matrix is not symmetric"), w)
    else (Return tt, stored w self L (set_I (Matrix rows))).
Proof using Hself.
  intros rows. rewrite I_body_run. unfold checked_inertia.
  change (ismatrix (Matrix rows) (3, 3)%nat) with true. cbv iota.
  change (rows_of (Matrix rows)) with rows.
  destruct (not_symmetric rows); reflexivity.
Qed.


End Bodies.

Lemma ismatrix_33_inv (v : pyval) :
  ismatrix v (3, 3)%nat = true ->
  exists a b c d e f g h i : float,
    v = Matrix [[a; b; c]; [d; e; f]; [g; h; i]].
Proof.
  destruct v as [x|l|l|rows|planes]; simpl; try discriminate.
  destruct rows
    as [|[|a [|b [|c [|? ?]]]]
          [|[|d [|e [|f [|? ?]]]] [|[|g [|h [|i [|? ?]]]] [|? ?]]]];
    simpl; try discriminate.
  intros _. by exists a, b, c, d, e, f, g, h, i.
Qed.

(** The elements of a row or of a column, in order. *)
Lemma row_or_column_length (rows : list (list float)) (dim : nat) :
  is_row_or_column rows dim = true -> length (concat rows) = dim.
Proof.
  unfold is_row_or_column. intros H. apply orb_prop in H as [H|H];
    apply andb_prop in H as [Hn Hall]; apply Nat.eqb_eq in Hn.
  - destruct rows as [|row [|? ?]]; try discriminate. simpl in *.
    apply andb_prop in Hall as [Hrow _]. apply Nat.eqb_eq in Hrow.
    rewrite length_app, Hrow. simpl. lia.
  - subst dim. induction rows as [|row rows IH]; [reflexivity|].
    simpl in *. apply andb_prop in Hall as [Hrow Hall].
    apply Nat.eqb_eq in Hrow. rewrite length_app, Hrow, (IH Hall).
    reflexivity.
Qed.

Lemma length_9_inv (l : list float) :
  length l = 9%nat ->
  exists a b c d e f g h i : float, l = [a; b; c; d; e; f; g; h; i].
Proof.
  destruct l as [|a [|b [|c [|d [|e [|f [|g [|h [|i [|? ?]]]]]]]]]];
    try discriminate.
  intros _. by exists a, b, c, d, e, f, g, h, i.
Qed.

(** A successful reshape of a 9-vector gives three rows of three. *)
Lemma reshape33_inv (v : pyval) (rows : list (list float)) :
  isvector v 9 = true ->
  reshape33 v = Return rows ->
  exists a b c d e f g h i : float,
    rows = [[a; b; c]; [d; e; f]; [g; h; i]].
Proof.
  destruct v as [x|l|l|rs|planes]; simpl; try discriminate.
  - intros Hl [= <-]. apply Nat.eqb_eq in Hl.
    destruct (length_9_inv l Hl) as (a & b & c & d & e & f & g & h & i & ->).
    by exists a, b, c, d, e, f, g, h, i.
  - intros Hrc [= <-].
    destruct (length_9_inv _ (row_or_column_length _ _ Hrc))
      as (a & b & c & d & e & f & g & h & i & ->).
    by exists a, b, c, d, e, f, g, h, i.
Qed.

(** What the setter stores for a list or one-dimensional array of six or
    of three numbers. *)
Lemma checked_inertia_6_or_3 (v : pyval) :
  one_dimensional v = true ->
  isvector v 6 = true \/ isvector v 3 = true ->
  exists Ixx Iyy Izz Ixy Iyz Ixz : float,
    checked_inertia v
    = Return (Matrix [[Ixx; Ixy; Ixz]; [Ixy; Iyy; Iyz]; [Ixz; Iyz; Izz]]).
Proof.
  destruct v as [x|l|l|rs|planes]; simpl; try discriminate; intros _ [H|H];
    apply Nat.eqb_eq in H.
  - destruct l as [|a [|b [|c [|d [|e [|f [|? ?]]]]]]]; try discriminate.
    by exists a, b, c, d, e, f.
  - destruct l as [|a [|b [|c [|? ?]]]]; try discriminate.
    by exists a, b, c, 0%float, 0%float, 0%float.
  - destruct l as [|a [|b [|c [|d [|e [|f [|? ?]]]]]]]; try discriminate.
    by exists a, b, c, d, e, f.
  - destruct l as [|a [|b [|c [|? ?]]]]; try discriminate.
    by exists a, b, c, 0%float, 0%float, 0%float.
Qed.

(** ** The symmetry check *)

Section Symmetry.

Variables a b c d e f g h i : float.

Lemma not_symmetric_entries :
  not_symmetric [[a; b; c]; [d; e; f]; [g; h; i]] = false ->
  forall x y : nat, (x < 3)%nat -> (y < 3)%nat ->
    (tolerance
     <? np_abs (entry [[a; b; c]; [d; e; f]; [g; h; i]] x y
                - entry [[a; b; c]; [d; e; f]; [g; h; i]] y x))%float
    = false.
Proof.
  unfold not_symmetric. simpl. unfold id. rewrite !orb_false_r.
  intros H.
  repeat match goal with
         | H : (_ || _) = false |- _ => apply orb_false_elim in H as [? ?]
         end.
  intros [|[|[|x]]] [|[|[|y]]] Hx Hy; try lia; assumption.
Qed.

Lemma not_symmetric_false :
  not_symmetric [[a; b; c]; [d; e; f]; [g; h; i]] = false ->
  symmetric_or_nan tolerance [[a; b; c]; [d; e; f]; [g; h; i]].
Proof.
  intros H x y Hx Hy.
  apply not_gt_le_or_nan; [apply (not_symmetric_entries H x y Hx Hy)|].
  reflexivity.
Qed.

Lemma asymmetry_not_symmetric :
  asymmetry_exceeds tolerance [[a; b; c]; [d; e; f]; [g; h; i]] ->
  not_symmetric [[a; b; c]; [d; e; f]; [g; h; i]] = true.
Proof.
  intros (x & y & Hx & Hy & H).
  destruct (not_symmetric _) eqn:E; [reflexivity|].
  rewrite (not_symmetric_entries E x y Hx Hy) in H. discriminate.
Qed.

End Symmetry.

Lemma exactly_symmetric_or_nan (rows : list (list float)) :
  exactly_symmetric rows -> symmetric_or_nan tolerance rows.
Proof.
  intros H x y Hx Hy. rewrite (H x y Hx Hy).
  apply sub_diag_le_or_nan. reflexivity.
Qed.

Lemma exactly_symmetric_6 (Ixx Iyy Izz Ixy Iyz Ixz : float) :
  exactly_symmetric [[Ixx; Ixy; Ixz]; [Ixy; Iyy; Iyz]; [Ixz; Iyz; Izz]].
Proof. intros [|[|[|x]]] [|[|[|y]]] Hx Hy; try lia; reflexivity. Qed.

(** ** Inertia *)

Lemma checked_inertia_square (v : pyval) (x : pyval) :
  ismatrix v (3, 3)%nat = true \/ isvector v 9 = true ->
  checked_inertia v = Return x ->
  exists a b c d e f g h i : float,
    x = Matrix [[a; b; c]; [d; e; f]; [g; h; i]]
    /\ not_symmetric [[a; b; c]; [d; e; f]; [g; h; i]] = false.
Proof.
  intros Hshape. unfold checked_inertia.
  destruct (ismatrix v (3, 3)%nat) eqn:Em.
  { destruct (ismatrix_33_inv v Em)
      as (a & b & c & d & e & f & g & h & i & ->).
    simpl rows_of. destruct (not_symmetric _) eqn:E; [discriminate|].
    intros [= <-]. by exists a, b, c, d, e, f, g, h, i. }
  destruct Hshape as [?|E9]; [discriminate|]. rewrite E9.
  destruct (reshape33 v) as [|rows] eqn:Er; [discriminate|].
  destruct (reshape33_inv v rows E9 Er)
    as (a & b & c & d & e & f & g & h & i & ->).
  simpl. destruct (not_symmetric _) eqn:E; [discriminate|].
  intros [= <-]. by exists a, b, c, d, e, f, g, h, i.
Qed.

Lemma checked_inertia_asymmetric (v : pyval) (rows : list (list float)) :
  ismatrix v (3, 3)%nat = true /\ rows = rows_of v
  \/ ismatrix v (3, 3)%nat = false /\ isvector v 9 = true
     /\ reshape33 v = Return rows ->
  asymmetry_exceeds tolerance rows ->
  checked_inertia v = Raise (ValueError "3x3 matrix is not symmetric").
Proof.
  unfold checked_inertia. intros [[Em ->]|(Em & E9 & Er)] Hex; rewrite Em.
  - destruct (ismatrix_33_inv v Em)
      as (a & b & c & d & e & f & g & h & i & ->).
    simpl rows_of in *. rewrite (asymmetry_not_symmetric _ _ _ _ _ _ _ _ _ Hex).
    reflexivity.
  - rewrite E9, Er. simpl.
    destruct (reshape33_inv v rows E9 Er)
      as (a & b & c & d & e & f & g & h & i & ->).
    rewrite (asymmetry_not_symmetric _ _ _ _ _ _ _ _ _ Hex). reflexivity.
Qed.

Lemma checked_inertia_rejected (v : pyval) :
  accepted_shape v = false ->
  checked_inertia v
  = Raise (ValueError "invalid shape passed: must be (3,3), (6,), (3,)").
Proof.
  unfold accepted_shape. intros H.
  apply orb_false_elim in H as [H H3].
  apply orb_false_elim in H as [H H6].
  apply orb_false_elim in H as [Hm H9].
  unfold checked_inertia. rewrite Hm, H9, H6, H3. reflexivity.
Qed.

(** The inertia setter under its decorator. *)
Lemma I_setter_run (w : world) (self : loc) (L : DHLink) (v : pyval) :
  links w !! self = Some L ->
  I_setter self v w =
    match checked_inertia v with
    | Raise e => (Raise e, notified L w)
    | Return x => (Return tt, stored (notified L w) self L (set_I x))
    end.
Proof.
  intros Hself. unfold I_setter. rewrite (listen_dyn_run _ _ _ _ _ Hself).
  apply I_body_run. rewrite links_notified. exact Hself.
Qed.

(** C4 as stated fails: a 3x3 array with a NaN above the diagonal and a
    one below it is accepted and stored, and it is not symmetric within
    1e-8. *)
Lemma inertia_nan_counterexample :
  ~ (forall (w : world) (self : loc) (L : DHLink) (v : pyval),
       links w !! self = Some L ->
       (I_setter self v w).1 = Return tt ->
       exists rows : list (list float),
         links (I_setter self v w).2 !! self = Some (set_I (Matrix rows) L)
         /\ ismatrix (Matrix rows) (3, 3)%nat = true
         /\ symmetric_within tolerance rows).
Proof.
  intros H.
  destruct (H small_world 2%nat owned_link (Matrix nan_matrix)
              eq_refl eq_refl) as (rows & Hstored & _ & Hsym).
  rewrite (I_setter_run small_world 2%nat owned_link _ eq_refl) in Hstored.
  change (checked_inertia (Matrix nan_matrix))
    with (@Return pyval (Matrix nan_matrix)) in Hstored.
  simpl in Hstored. rewrite lookup_insert_eq in Hstored.
  injection Hstored as <-.
  specialize (Hsym 0%nat 1%nat ltac:(lia) ltac:(lia)).
  vm_compute in Hsym. discriminate.
Qed.

(** C4, amended: a successful assignment of a 3x3 array or of a
    9-vector stores a 3x3 matrix in which every pair of mirrored entries
    differs by at most 1e-8 or by NaN; a list or one-dimensional array of
    six or of three numbers is always accepted and stored as an exactly
    symmetric 3x3 matrix; a 3x3 array or reshaped 9-vector whose asymmetry
    exceeds 1e-8 somewhere is refused as not symmetric, an input that
    none of the four shape tests accepts is refused for its shape, and
    every refused assignment leaves the link as it was. *)
Theorem inertia_setter_symmetric (w : world) (self : loc) (L : DHLink)
    (v : pyval) :
  links w !! self = Some L ->
  let res := (I_setter self v w).1 in
  let w' := (I_setter self v w).2 in
  (ismatrix v (3, 3)%nat = true \/ isvector v 9 = true ->
   res = Return tt ->
   exists rows : list (list float),
     links w' !! self = Some (set_I (Matrix rows) L)
     /\ ismatrix (Matrix rows) (3, 3)%nat = true
     /\ symmetric_or_nan tolerance rows)
  /\ (one_dimensional v = true ->
      isvector v 6 = true \/ isvector v 3 = true ->
      res = Return tt
      /\ exists rows : list (list float),
           links w' !! self = Some (set_I (Matrix rows) L)
           /\ ismatrix (Matrix rows) (3, 3)%nat = true
           /\ exactly_symmetric rows
           /\ symmetric_or_nan tolerance rows)
  /\ (forall rows : list (list float),
        ismatrix v (3, 3)%nat = true /\ rows = rows_of v
        \/ ismatrix v (3, 3)%nat = false /\ isvector v 9 = true
           /\ reshape33 v = Return rows ->
        asymmetry_exceeds tolerance rows ->
        res = Raise (ValueError "3x3 matrix is not symmetric")
        /\ links w' !! self = Some L)
  /\ (accepted_shape v = false ->
      res = Raise (ValueError "invalid shape passed: must be (3,3), (6,), (3,)")
      /\ links w' !! self = Some L)
  /\ (forall e : exn, res = Raise e -> links w' !! self = Some L).
Proof.
  intros Hself. rewrite (I_setter_run _ _ _ _ Hself).
  assert (Hn : links (notified L w) !! self = Some L)
    by (rewrite links_notified; exact Hself).
  split; [|split; [|split; [|split]]].
  - intros Hshape. destruct (checked_inertia v) as [e|x] eqn:E; simpl;
      [discriminate|]. intros _.
    destruct (checked_inertia_square v x Hshape E)
      as (a & b & c & d & e & f & g & h & i & -> & Hsym).
    eexists. split; [apply lookup_insert_eq|]. split; [reflexivity|].
    apply not_symmetric_false, Hsym.
  - intros H1 Hlen.
    destruct (checked_inertia_6_or_3 v H1 Hlen)
      as (Ixx & Iyy & Izz & Ixy & Iyz & Ixz & ->).
    simpl. split; [reflexivity|]. eexists.
    split; [apply lookup_insert_eq|]. split; [reflexivity|].
    split; [|apply exactly_symmetric_or_nan]; apply exactly_symmetric_6.
  - intros rows Hrows Hex.
    rewrite (checked_inertia_asymmetric v rows Hrows Hex). simpl.
    split; [reflexivity | exact Hn].
  - intros Hacc. rewrite (checked_inertia_rejected v Hacc). simpl.
    split; [reflexivity | exact Hn].
  - intros e. destruct (checked_inertia v); simpl; [|discriminate].
    intros _. exact Hn.
Qed.

(** ** Setters through their decorator *)

Section Setters.

Variables (w : world) (self : loc) (L : DHLink).
Hypothesis Hself : links w !! self = Some L.

Lemma notified_self : links (notified L w) !! self = Some L.
Proof using Hself. rewrite links_notified. exact Hself. Qed.

(** A setter that only rebinds an attribute. *)
Lemma plain_setter_run {A : Type} (set : A -> DHLink -> DHLink) (v : A) :
  _listen_dyn (fun s x => setattr s (set x)) self v w =
    (Return tt, stored (notified L w) self L (set v)).
Proof using Hself.
  rewrite (listen_dyn_run _ _ _ _ _ Hself). apply setattr_run, notified_self.
Qed.

Lemma d_setter_run (d_new : float) :
  d_setter self d_new w =
    if truthy (_sigma L) && negb (d_new =? 0)%float
    then (Raise (ValueError "f is not valid for prismatic joints"),
          notified L w)
    else (Return tt, stored (notified L w) self L (set_d d_new)).
Proof using Hself.
  unfold d_setter. rewrite (listen_dyn_run _ _ _ _ _ Hself).
  apply d_body_run, notified_self.
Qed.

Lemma theta_setter_run (theta_new : float) :
  theta_setter self theta_new w =
    if negb (truthy (_sigma L)) && negb (theta_new =? 0)%float
    then (Raise (ValueError "theta is not valid for revolute joints"),
          notified L w)
    else (Return tt, stored (notified L w) self L (set_theta theta_new)).
Proof using Hself.
  unfold theta_setter. rewrite (listen_dyn_run _ _ _ _ _ Hself).
  apply theta_body_run, notified_self.
Qed.

Lemma Tc_setter_run (Tc_new : pyval) :
  Tc_setter self Tc_new w =
    match checked_Tc Tc_new with
    | Raise e => (Raise e, notified L w)
    | Return x => (Return tt, stored (notified L w) self L (set_Tc x))
    end.
Proof using Hself.
  unfold Tc_setter. rewrite (listen_dyn_run _ _ _ _ _ Hself).
  apply Tc_body_run, notified_self.
Qed.

Lemma B_setter_run (B_new : pyval) :
  B_setter self B_new w =
    match B_new with
    | Scalar x => (Return tt, stored (notified L w) self L (set_B x))
    | _ => (Raise (TypeError "B must be a scalar"), notified L w)
    end.
Proof using Hself.
  unfold B_setter. rewrite (listen_dyn_run _ _ _ _ _ Hself).
  apply B_body_run, notified_self.
Qed.


End Setters.

(** ** The fields that must stay zero *)

(** C3: on a revolute link, assigning a nonzero [theta] raises the
    constraint violation and assigning zero succeeds; on a prismatic link
    the same holds of [d]; a refused assignment leaves the link as it
    was. *)
Theorem zero_only_fields (w : world) (self : loc) (L : DHLink) (v : float) :
  links w !! self = Some L ->
  (isrevolute L = true ->
   ((v =? 0)%float = false ->
    (theta_setter self v w).1
      = Raise (ValueError "theta is not valid for revolute joints")
    /\ links (theta_setter self v w).2 !! self = Some L)
   /\ ((v =? 0)%float = true ->
       (theta_setter self v w).1 = Return tt
       /\ links (theta_setter self v w).2 !! self = Some (set_theta v L)))
  /\ (isprismatic L = true ->
      ((v =? 0)%float = false ->
       (d_setter self v w).1
         = Raise (ValueError "f is not valid for prismatic joints")
       /\ links (d_setter self v w).2 !! self = Some L)
      /\ ((v =? 0)%float = true ->
          (d_setter self v w).1 = Return tt
          /\ links (d_setter self v w).2 !! self = Some (set_d v L))).
Proof.
  intros Hself. split.
  - unfold isrevolute. intros Hrev.
    rewrite (theta_setter_run _ _ _ Hself).
    destruct (truthy (_sigma L)); [discriminate|].
    split; intros ->; simpl.
    + split; [reflexivity | apply notified_self, Hself].
    + split; [reflexivity | apply lookup_insert_eq].
  - unfold isprismatic. intros Hpri.
    rewrite (d_setter_run _ _ _ Hself).
    destruct (truthy (_sigma L)); [|discriminate].
    split; intros ->; simpl.
    + split; [reflexivity | apply notified_self, Hself].
    + split; [reflexivity | apply lookup_insert_eq].
Qed.

(** ** Inertia from a 6-vector *)


(** ** Coulomb friction *)




(** ** Notification of the owner *)

(** A setter body either raises and leaves the world as it found it, or
    returns after rebinding attributes of [self] only. *)
Lemma assign_body_outcome (w : world) (self : loc) (L : DHLink)
    (s : assignment) :
  links w !! self = Some L ->
  (exists e : exn, assign_body self s w = (Raise e, w))
  \/ (exists upd : DHLink -> DHLink,
        assign_body self s w = (Return tt, stored w self L upd)).
Proof.
  intros Hself.
  destruct s as [v|v|v|v|v|v|v|v|v|v|v|v|v|v|v|v]; simpl;
    try (right; eexists; apply setattr_run, Hself).
  - rewrite (d_body_run _ _ _ Hself). destruct (_ && _); eauto.
  - rewrite (theta_body_run _ _ _ Hself). destruct (_ && _); eauto.
  - unfold qlim_setter. rewrite (getvector_body_run _ _ _ Hself).
    destruct (getvector v 2); eauto.
  - unfold r_body. rewrite (getvector_body_run _ _ _ Hself).
    destruct (getvector v 3); eauto.
  - rewrite (I_body_run _ _ _ Hself). destruct (checked_inertia v); eauto.
  - rewrite (B_body_run _ _ _ Hself). destruct v; eauto.
  - rewrite (Tc_body_run _ _ _ Hself). destruct (checked_Tc v); eauto.
Qed.

Lemma assign_listens (w : world) (self : loc) (L : DHLink) (s : assignment) :
  links w !! self = Some L ->
  affects_dynamics s = true ->
  assign self s w = assign_body self s (notified L w).
Proof.
  intros Hself Hs.
  destruct s; try discriminate; exact (listen_dyn_run _ _ _ _ _ Hself).
Qed.

Lemma calls_notified (w : world) (L : DHLink) (r : loc) :
  _robot L = Some r -> calls (notified L w) r = S (calls w r).
Proof.
  intros Hr. unfold notified. rewrite Hr. unfold calls at 1. simpl.
  rewrite lookup_insert_eq. reflexivity.
Qed.

(** C10: on a link with an owner, every setter that affects the dynamics
    tells the owner before it validates; the owner hears of the call
    exactly once, also when the assignment is then refused and the link
    stays as it was. *)
Theorem owner_notified_before_validation (w : world) (self : loc)
    (L : DHLink) (r : loc) (s : assignment) :
  links w !! self = Some L ->
  _robot L = Some r ->
  affects_dynamics s = true ->
  assign self s w = assign_body self s (notified L w)
  /\ calls (notified L w) r = S (calls w r)
  /\ calls (assign self s w).2 r = S (calls w r)
  /\ (forall e : exn,
        (assign self s w).1 = Raise e ->
        links (assign self s w).2 !! self = Some L).
Proof.
  intros Hself Hr Hs.
  pose proof (calls_notified w L r Hr) as Hcalls.
  pose proof (notified_self _ _ _ Hself) as Hn.
  split; [apply assign_listens; assumption|].
  split; [exact Hcalls|].
  rewrite (assign_listens _ _ _ _ Hself Hs).
  destruct (assign_body_outcome _ _ _ s Hn) as [[e ->]|[upd ->]]; simpl.
  - split; [exact Hcalls|]. intros _ _. exact Hn.
  - split; [exact Hcalls|]. discriminate.
Qed.

(** ** Zeroing friction *)

Lemma fresh_link (w : world) (self : loc) (L : DHLink) :
  links w !! self = Some L ->
  fresh (dom (links w)) <> self /\ links w !! fresh (dom (links w)) = None.
Proof.
  intros Hself.
  assert (Hfresh : links w !! fresh (dom (links w)) = None)
    by (apply not_elem_of_dom, is_fresh).
  split; [|exact Hfresh]. intros E. rewrite E in Hfresh. congruence.
Qed.

Lemma nofriction_run (w : world) (self : loc) (L : DHLink)
    (coulomb viscous : bool) :
  links w !! self = Some L ->
  exists w' : world,
    nofriction self coulomb viscous w = (Return (fresh (dom (links w))), w')
    /\ links w' = <[fresh (dom (links w)) := zeroed coulomb viscous L]> (links w).
Proof.
  intros Hself. set (link := fresh (dom (links w))).
  unfold nofriction.
  erewrite bind_run by (unfold _copy; rewrite Hself; reflexivity).
  fold link.
  set (w1 := mkWorld (<[link := L]> (links w)) (dynchanged_calls w)).
  assert (H1 : links w1 !! link = Some L) by apply lookup_insert_eq.
  destruct viscous.
  - erewrite bind_run by apply (B_setter_run _ _ _ H1 (Scalar 0)).
    set (w2 := stored (notified L w1) link L (set_B 0)).
    assert (H2 : links w2 !! link = Some (set_B 0 L)) by apply stored_self.
    assert (E2 : links w2 = <[link := set_B 0 L]> (links w)).
    { unfold w2, stored. simpl. rewrite links_notified. apply insert_insert_eq. }
    destruct coulomb.
    + erewrite bind_run by apply (Tc_setter_run _ _ _ H2 (PyList [0; 0]%float)).
      eexists. split; [reflexivity|]. simpl. rewrite links_notified, E2.
      apply insert_insert_eq.
    + erewrite bind_run by reflexivity.
      eexists. split; [reflexivity|]. exact E2.
  - erewrite bind_run by reflexivity.
    destruct coulomb.
    + erewrite bind_run by apply (Tc_setter_run _ _ _ H1 (PyList [0; 0]%float)).
      eexists. split; [reflexivity|]. simpl. rewrite links_notified.
      apply insert_insert_eq.
    + erewrite bind_run by reflexivity.
      eexists. split; [reflexivity|]. reflexivity.
Qed.

(** C8: zeroing the friction of the result of [nofriction] with the same
    flags gives a link with the same viscous and Coulomb friction; with the
    default flags the Coulomb pair becomes [(0, 0)] and the viscous
    friction is kept; the original link keeps its fields throughout. *)
Theorem nofriction_idempotent (w : world) (self : loc) (L : DHLink)
    (coulomb viscous : bool) :
  links w !! self = Some L ->
  exists (l1 : loc) (w1 : world) (L1 : DHLink),
    nofriction self coulomb viscous w = (Return l1, w1)
    /\ l1 <> self
    /\ links w1 !! l1 = Some L1
    /\ links w1 !! self = Some L
    /\ (coulomb = true -> viscous = false ->
        _Tc L1 = [0; 0]%float /\ _B L1 = _B L)
    /\ exists (l2 : loc) (w2 : world) (L2 : DHLink),
         nofriction l1 coulomb viscous w1 = (Return l2, w2)
         /\ links w2 !! l2 = Some L2
         /\ _B L2 = _B L1 /\ _Tc L2 = _Tc L1
         /\ links w2 !! l1 = Some L1
         /\ links w2 !! self = Some L.
Proof.
  intros Hself.
  destruct (nofriction_run w self L coulomb viscous Hself) as (w1 & Hrun1 & E1).
  destruct (fresh_link w self L Hself) as [Hne1 _].
  set (l1 := fresh (dom (links w))) in *.
  set (L1 := zeroed coulomb viscous L) in *.
  assert (H1 : links w1 !! l1 = Some L1)
    by (rewrite E1; apply lookup_insert_eq).
  assert (H1s : links w1 !! self = Some L)
    by (rewrite E1, lookup_insert_ne by exact Hne1; exact Hself).
  destruct (nofriction_run w1 l1 L1 coulomb viscous H1) as (w2 & Hrun2 & E2).
  destruct (fresh_link w1 l1 L1 H1) as [Hne2 Hnone2].
  set (l2 := fresh (dom (links w1))) in *.
  assert (Hne2s : l2 <> self) by (intros E; rewrite E in Hnone2; congruence).
  exists l1, w1, L1. repeat (split; [assumption|]).
  split; [intros -> ->; split; reflexivity|].
  exists l2, w2, (zeroed coulomb viscous L1).
  split; [assumption|].
  split; [rewrite E2; apply lookup_insert_eq|].
  split; [unfold L1; destruct coulomb, viscous; reflexivity|].
  split; [unfold L1; destruct coulomb, viscous; reflexivity|].
  split; rewrite E2, lookup_insert_ne by assumption; assumption.
Qed.

(** ** Construction with the defaults *)

Lemma qlim_setter_run (w : world) (self : loc) (L : DHLink) (v : pyval) :
  links w !! self = Some L ->
  qlim_setter self v w =
    match getvector v 2 with
    | Raise e => (Raise e, w)
    | Return x => (Return tt, stored w self L (set_qlim x))
    end.
Proof. intros Hself. apply getvector_body_run, Hself. Qed.

Lemma r_setter_run (w : world) (self : loc) (L : DHLink) (v : pyval) :
  links w !! self = Some L ->
  r_setter self v w =
    match getvector v 3 with
    | Raise e => (Raise e, notified L w)
    | Return x => (Return tt, stored (notified L w) self L (set_r x))
    end.
Proof.
  intros Hself. unfold r_setter. rewrite (listen_dyn_run _ _ _ _ _ Hself).
  apply getvector_body_run, notified_self, Hself.
Qed.

Lemma I_setter_zeros (w : world) (self : loc) (L : DHLink) :
  links w !! self = Some L ->
  I_setter self (Matrix zeros33) w =
    (Return tt, stored (notified L w) self L (set_I (Matrix zeros33))).
Proof.
  intros Hself. unfold I_setter. rewrite (listen_dyn_run _ _ _ _ _ Hself).
  apply (I_body_matrix _ _ _ (notified_self _ _ _ Hself) 0 0 0 0 0 0 0 0 0).
Qed.

Lemma DHLink_init_default (w : world) (d alpha theta a : float) (sigma : Z)
    (mdh : bool) (offset : float) (flip : bool) :
  negb (truthy sigma) && negb (theta =? 0)%float = false ->
  truthy sigma && negb (d =? 0)%float = false ->
  exists w' : world,
    DHLink_init d alpha theta a sigma mdh offset (Vector (zeros 2)) flip
      kwargs_default w = (Return (fresh (dom (links w))), w')
    /\ links w' !! fresh (dom (links w))
       = Some (default_link d alpha theta a sigma mdh offset flip).
Proof.
  intros Htheta Hd. set (self := fresh (dom (links w))).
  unfold DHLink_init.
  erewrite bind_run by reflexivity. fold self.
  erewrite bind_run by (apply plain_setter_run, lookup_insert_eq).
  erewrite bind_run
    by (erewrite theta_setter_run by apply stored_self;
        simpl; rewrite Htheta; reflexivity).
  erewrite bind_run
    by (erewrite d_setter_run by apply stored_self;
        simpl; rewrite Hd; reflexivity).
  erewrite bind_run by (apply plain_setter_run, stored_self).
  erewrite bind_run by (apply plain_setter_run, stored_self).
  erewrite bind_run by (apply plain_setter_run, stored_self).
  erewrite bind_run by (apply setattr_run, stored_self).
  erewrite bind_run by (apply setattr_run, stored_self).
  erewrite bind_run
    by (erewrite qlim_setter_run by apply stored_self; reflexivity).
  erewrite bind_run by (apply plain_setter_run, stored_self).
  erewrite bind_run
    by (erewrite r_setter_run by apply stored_self; reflexivity).
  erewrite bind_run by (apply I_setter_zeros, stored_self).
  erewrite bind_run by (apply plain_setter_run, stored_self).
  erewrite bind_run
    by (erewrite B_setter_run by apply stored_self; reflexivity).
  erewrite bind_run
    by (erewrite Tc_setter_run by apply stored_self; reflexivity).
  erewrite bind_run by (apply plain_setter_run, stored_self).
  eexists. split; [reflexivity|].
  apply stored_self.
Qed.

(** ** The link transform *)

Section TransformProperties.

Variables np_sin np_cos : float -> float.

Lemma A_unfold (self : DHLink) (q : float) :
  A np_sin np_cos self q = computeTransform_spec np_sin np_cos self q.
Proof.
  unfold A, computeTransform_spec, jointType, convention, isrevolute,
    truthy, _sin, _cos.
  destruct (_sigma self =? 0), (_mdh self =? 0); reflexivity.
Qed.

(** C2: [A] forms [qAdj], takes sine, cosine and offset by joint type and
    returns the matrix of the link's convention, exactly as the
    specification's algorithm does; the standard prismatic link with
    [theta = 0], [alpha = 0], [a = 0] has at [q = 3] the identity as
    rotation and [(0, 0, 3)] as translation. *)
Theorem transform_follows_algorithm :
  (forall (self : DHLink) (q : float),
     A np_sin np_cos self q = computeTransform_spec np_sin np_cos self q)
  /\ (np_sin 0%float = 0%float -> np_cos 0%float = 1%float ->
      forall w : world,
      exists (l : loc) (w' : world) (L : DHLink),
        PrismaticDH 0 0 0 0 (Vector (zeros 2)) false kwargs_default w
          = (Return l, w')
        /\ links w' !! l = Some L
        /\ jointType L = Prismatic /\ convention L = Standard
        /\ array_equal (rotation (A np_sin np_cos L 3)) identity3 = true
        /\ translation (A np_sin np_cos L 3) = [0; 0; 3]%float).
Proof.
  split; [exact A_unfold|].
  intros Hsin Hcos w.
  destruct (DHLink_init_default w 0 0 0 0 1 false 0 false eq_refl eq_refl)
    as (w' & Hrun & Hl).
  eexists _, w', _. split; [exact Hrun|]. split; [exact Hl|].
  split; [reflexivity|]. split; [reflexivity|].
  unfold A, _sin, _cos. simpl. rewrite Hsin, Hcos.
  split; reflexivity.
Qed.

(** C5: a revolute link that is flipped and has no offset has at [q] the
    transform that the same link, not flipped, has at [-q]. *)
Theorem flip_negates_joint_variable (self : DHLink) (q : float) :
  isrevolute self = true ->
  _flip self = true ->
  _offset self = 0%float ->
  A np_sin np_cos self q = A np_sin np_cos (set_flip false self) (- q).
Proof.
  intros _ Hflip _. unfold A. simpl. rewrite Hflip. reflexivity.
Qed.

End TransformProperties.

Lemma transform_follows_algorithm_witness :
  (sin_poly 0 = 0%float /\ cos_poly 0 = 1%float)
  /\ exists (l : loc) (w' : world) (L : DHLink),
       PrismaticDH 0 0 0 0 (Vector (zeros 2)) false kwargs_default
         (mkWorld ∅ ∅) = (Return l, w')
       /\ links w' !! l = Some L
       /\ jointType L = Prismatic /\ convention L = Standard
       /\ array_equal (rotation (A sin_poly cos_poly L 3)) identity3 = true
       /\ translation (A sin_poly cos_poly L 3) = [0; 0; 3]%float.
Proof.
  split; [split; reflexivity|].
  apply (proj2 (transform_follows_algorithm sin_poly cos_poly));
    reflexivity.
Defined.

Lemma flip_negates_joint_variable_witness :
  let self := default_link 2 0 0 1 0 false 0 true in
  (isrevolute self = true /\ _flip self = true /\ _offset self = 0%float)
  /\ A sin_poly cos_poly self 0.5 = A sin_poly cos_poly (set_flip false self) (-0.5).
Proof.
  intros self. split; [repeat split|].
  apply (flip_negates_joint_variable sin_poly cos_poly self 0.5); reflexivity.
Defined.

(** ** Joint limits *)

Lemma islimit_run (self : DHLink) (mn mx q : float) :
  _qlim self = [mn; mx] ->
  islimit self q = Return ((q <? mn)%float || (mx <? q)%float).
Proof.
  intros H. unfold islimit. rewrite H. simpl.
  destruct (q <? mn)%float; [reflexivity|].
  destruct (mx <? q)%float; reflexivity.
Qed.

(** The limits setter takes any two numbers, in any order. *)
Lemma qlim_setter_unordered :
  exists w' : world,
    qlim_setter 0%nat (Vector [5; 1]%float) small_world = (Return tt, w')
    /\ links w' !! 0%nat = Some (set_qlim [5; 1]%float revolute_link).
Proof.
  eexists. split.
  - rewrite (qlim_setter_run small_world 0%nat revolute_link) by reflexivity.
    reflexivity.
  - apply stored_self.
Qed.

(** C9 as stated fails: with limits [(5, 1)] the value [5] equals the
    minimum, yet it is above the maximum and [islimit] returns true. *)
Lemma islimit_boundary_counterexample :
  ~ (forall (self : DHLink) (mn mx q : float),
       _qlim self = [mn; mx] ->
       (islimit self q = Return true <->
        (q <? mn)%float = true \/ (mx <? q)%float = true)
       /\ (q = mn \/ q = mx -> islimit self q = Return false)).
Proof.
  intros H.
  destruct (H (set_qlim [5; 1]%float blank) 5%float 1%float 5%float eq_refl)
    as [_ Hb].
  specialize (Hb (or_introl eq_refl)). vm_compute in Hb. discriminate.
Qed.

(** C9, amended: [islimit] is true exactly when [q < min] or [q > max];
    when [min <= max] it is false at [min] and at [max]. *)
Theorem islimit_outside_interval (self : DHLink) (mn mx q : float) :
  _qlim self = [mn; mx] ->
  (islimit self q = Return true <->
   (q <? mn)%float = true \/ (mx <? q)%float = true)
  /\ ((mn <=? mx)%float = true ->
      islimit self mn = Return false /\ islimit self mx = Return false).
Proof.
  intros H. split.
  - rewrite (islimit_run self mn mx q H). split.
    + intros [= E]. apply orb_prop in E. exact E.
    + intros [E|E]; rewrite E; [reflexivity|]. rewrite orb_true_r. reflexivity.
  - intros Hle. rewrite !(islimit_run self mn mx _ H).
    rewrite !FloatFacts.ltb_irrefl, (FloatFacts.leb_not_gt _ _ Hle).
    split; reflexivity.
Qed.

Lemma islimit_outside_interval_witness :
  let self := set_qlim [-1; 1]%float blank in
  _qlim self = [-1; 1]%float
  /\ (islimit self 0.5 = Return true <->
      (0.5 <? -1)%float = true \/ (1 <? 0.5)%float = true)
  /\ ((-1 <=? 1)%float = true ->
      islimit self (-1) = Return false /\ islimit self 1 = Return false).
Proof.
  intros self. split; [reflexivity|].
  apply (islimit_outside_interval self (-1) 1 0.5). reflexivity.
Defined.

(** ** Concrete runs *)

Lemma zero_only_fields_witness :
  (links small_world !! 0%nat = Some revolute_link
   /\ isrevolute revolute_link = true /\ (0.5 =? 0)%float = false)
  /\ (theta_setter 0%nat 0.5 small_world).1
       = Raise (ValueError "theta is not valid for revolute joints")
  /\ links (theta_setter 0%nat 0.5 small_world).2 !! 0%nat
       = Some revolute_link.
Proof.
  split; [repeat split|].
  apply (zero_only_fields small_world 0%nat revolute_link 0.5);
    reflexivity.
Defined.

Lemma inertia_setter_symmetric_witness :
  let v := Matrix [[1; 2; 3]; [2; 4; 5]; [3; 5; 6]]%float in
  (links small_world !! 2%nat = Some owned_link
   /\ (ismatrix v (3, 3)%nat = true \/ isvector v 9 = true)
   /\ (I_setter 2%nat v small_world).1 = Return tt)
  /\ exists rows : list (list float),
       links (I_setter 2%nat v small_world).2 !! 2%nat
         = Some (set_I (Matrix rows) owned_link)
       /\ ismatrix (Matrix rows) (3, 3)%nat = true
       /\ symmetric_or_nan tolerance rows.
Proof.
  intros v. split; [split; [|split]; [reflexivity | left | ]; reflexivity|].
  apply (inertia_setter_symmetric small_world 2%nat owned_link v);
    [reflexivity | left; reflexivity | reflexivity].
Defined.



Lemma owner_notified_before_validation_witness :
  let s := Assign_I (Vector [1; 2]%float) in
  (links small_world !! 2%nat = Some owned_link
   /\ _robot owned_link = Some 7%nat
   /\ affects_dynamics s = true)
  /\ calls small_world 7%nat = 2%nat
  /\ calls (assign 2%nat s small_world).2 7%nat = 3%nat
  /\ (assign 2%nat s small_world).1
       = Raise (ValueError "invalid shape passed: must be (3,3), (6,), (3,)")
  /\ links (assign 2%nat s small_world).2 !! 2%nat = Some owned_link.
Proof.
  intros s. split; [repeat split|].
  split; [reflexivity|].
  destruct (owner_notified_before_validation small_world 2%nat owned_link
              7%nat s eq_refl eq_refl eq_refl) as (_ & _ & Hcalls & Hkept).
  split; [exact Hcalls|].
  split; [reflexivity|]. apply (Hkept _ eq_refl).
Defined.

Lemma nofriction_idempotent_witness :
  (links friction_world !! 4%nat = Some owned_prismatic_link
   /\ _B owned_prismatic_link = 0.25%float
   /\ _Tc owned_prismatic_link = [1; -1]%float)
  /\ exists (l1 : loc) (w1 : world) (L1 : DHLink),
       nofriction 4%nat true false friction_world = (Return l1, w1)
       /\ l1 <> 4%nat
       /\ links w1 !! l1 = Some L1
       /\ links w1 !! 4%nat = Some owned_prismatic_link
       /\ _Tc L1 = [0; 0]%float /\ _B L1 = 0.25%float
       /\ exists (l2 : loc) (w2 : world) (L2 : DHLink),
            nofriction l1 true false w1 = (Return l2, w2)
            /\ links w2 !! l2 = Some L2
            /\ _B L2 = _B L1 /\ _Tc L2 = _Tc L1
            /\ links w2 !! l1 = Some L1
            /\ links w2 !! 4%nat = Some owned_prismatic_link.
Proof.
  split; [repeat split|].
  destruct (nofriction_idempotent friction_world 4%nat owned_prismatic_link
              true false eq_refl)
    as (l1 & w1 & L1 & Hrun & Hne & Hl1 & Hself & Hdefault & Htwice).
  destruct (Hdefault eq_refl eq_refl) as [HTc HB].
  exists l1, w1, L1. repeat (split; [assumption|]). exact Htwice.
Defined.

(** * Further properties of the module *)

(** ** Assignments as functions of the link *)

Lemma assign_body_run (w : world) (self : loc) (L : DHLink) (s : assignment) :
  links w !! self = Some L ->
  assign_body self s w =
    match assigned s L with
    | Raise e => (Raise e, w)
    | Return L' => (Return tt, stored w self L (fun _ => L'))
    end.
Proof.
  intros Hself.
  destruct s as [v|v|v|v|v|v|v|v|v|v|v|v|v|v|v|v]; simpl;
    try exact (setattr_run _ _ _ _ Hself).
  - rewrite (d_body_run _ _ _ Hself). destruct (_ && _); reflexivity.
  - rewrite (theta_body_run _ _ _ Hself). destruct (_ && _); reflexivity.
  - unfold qlim_setter. rewrite (getvector_body_run _ _ _ Hself).
    destruct (getvector v 2); reflexivity.
  - unfold r_body. rewrite (getvector_body_run _ _ _ Hself).
    destruct (getvector v 3); reflexivity.
  - rewrite (I_body_run _ _ _ Hself).
    destruct (checked_inertia v); reflexivity.
  - rewrite (B_body_run _ _ _ Hself). destruct v; reflexivity.
  - rewrite (Tc_body_run _ _ _ Hself).
    destruct (checked_Tc v); reflexivity.
Qed.

Lemma assign_heard (w : world) (self : loc) (L : DHLink) (s : assignment) :
  links w !! self = Some L ->
  assign self s w = assign_body self s (heard s L w).
Proof.
  intros Hself. unfold heard.
  destruct s; try reflexivity; exact (listen_dyn_run _ _ _ _ _ Hself).
Qed.

Lemma heard_self (w : world) (self : loc) (L : DHLink) (s : assignment) :
  links w !! self = Some L -> links (heard s L w) !! self = Some L.
Proof.
  intros Hself. unfold heard.
  destruct (affects_dynamics s); [apply notified_self|]; exact Hself.
Qed.

Lemma links_heard (w : world) (L : DHLink) (s : assignment) :
  links (heard s L w) = links w.
Proof.
  unfold heard. destruct (affects_dynamics s); [apply links_notified|].
  reflexivity.
Qed.

Lemma assign_run (w : world) (self : loc) (L : DHLink) (s : assignment) :
  links w !! self = Some L ->
  assign self s w =
    match assigned s L with
    | Raise e => (Raise e, heard s L w)
    | Return L' => (Return tt, stored (heard s L w) self L (fun _ => L'))
    end.
Proof.
  intros Hself. rewrite (assign_heard _ _ _ _ Hself).
  apply assign_body_run, heard_self, Hself.
Qed.

(** What an assignment keeps of the link. *)

Lemma checked_Tc_length (v : pyval) (x : list float) :
  checked_Tc v = Return x -> length x = 2%nat.
Proof.
  unfold checked_Tc.
  destruct v as [F|l|l|rows|planes]; simpl; try discriminate.
  - intros [= <-]. reflexivity.
  - destruct l as [|F [|n [|y l]]]; simpl; try discriminate;
      intros [= <-]; reflexivity.
  - destruct l as [|F [|n [|y l]]]; simpl; try discriminate;
      intros [= <-]; reflexivity.
  - destruct (is_row_or_column rows 1) eqn:E1.
    + apply row_or_column_length in E1.
      destruct (concat rows) as [|F [|? ?]]; try discriminate. simpl.
      intros [= <-]. reflexivity.
    + simpl. destruct (is_row_or_column rows 2) eqn:E2; [|discriminate].
      intros [= <-]. apply row_or_column_length, E2.
Qed.

Lemma assigned_robot (s : assignment) (L L' : DHLink) :
  assigned s L = Return L' -> _robot L' = _robot L.
Proof.
  destruct s as [v|v|v|v|v|v|v|v|v|v|v|v|v|v|v|v]; simpl;
    try (intros [= <-]; reflexivity).
  - destruct (_ && _); [discriminate|]. intros [= <-]. reflexivity.
  - destruct (_ && _); [discriminate|]. intros [= <-]. reflexivity.
  - destruct (getvector v 2); [discriminate|]. intros [= <-]. reflexivity.
  - destruct (getvector v 3); [discriminate|]. intros [= <-]. reflexivity.
  - destruct (checked_inertia v); [discriminate|]. intros [= <-]. reflexivity.
  - destruct (isscalar v); [|discriminate]. intros [= <-]. reflexivity.
  - destruct (checked_Tc v); [discriminate|]. intros [= <-]. reflexivity.
Qed.

Lemma assigned_Tc_pair (s : assignment) (L L' : DHLink) :
  length (_Tc L) = 2%nat ->
  assigned s L = Return L' ->
  length (_Tc L') = 2%nat.
Proof.
  intros HTc.
  destruct s as [v|v|v|v|v|v|v|v|v|v|v|v|v|v|v|v]; simpl;
    try (intros [= <-]; exact HTc).
  - destruct (truthy _ && _); [discriminate|]. intros [= <-]. exact HTc.
  - destruct (negb _ && _); [discriminate|]. intros [= <-]. exact HTc.
  - destruct (getvector v 2); [discriminate|]. intros [= <-]. exact HTc.
  - destruct (getvector v 3); [discriminate|]. intros [= <-]. exact HTc.
  - destruct (checked_inertia v); [discriminate|]. intros [= <-]. exact HTc.
  - destruct (isscalar v); [|discriminate]. intros [= <-]. exact HTc.
  - destruct (checked_Tc v) as [|x] eqn:E; [discriminate|]. intros [= <-].
    exact (checked_Tc_length _ _ E).
Qed.

Lemma friction_returns (L : DHLink) (qd : float) (coulomb : bool) :
  length (_Tc L) = 2%nat ->
  exists tau : float, friction L qd coulomb = Return tau.
Proof.
  intros HTc. unfold friction.
  destruct (_Tc L) as [|p [|n [|? ?]]]; try discriminate.
  destruct coulomb; [|eauto].
  destruct (0 <? qd)%float; [simpl; eauto|].
  destruct (qd <? 0)%float; simpl; eauto.
Qed.

(** ** The Coulomb pair *)

(** X1: the Coulomb setter stores two torques or nothing, and no other
    setter touches them: whatever is assigned to a link with two Coulomb
    torques, and whether the assignment succeeds or raises, the link still
    has two, keeps its owner, and [friction] returns a value on it for
    every velocity. *)
Theorem assign_keeps_coulomb_pair (w : world) (self : loc) (L : DHLink)
    (s : assignment) :
  links w !! self = Some L ->
  length (_Tc L) = 2%nat ->
  exists L' : DHLink,
    links (assign self s w).2 !! self = Some L'
    /\ length (_Tc L') = 2%nat
    /\ _robot L' = _robot L
    /\ forall (qd : float) (coulomb : bool),
         exists tau : float, friction L' qd coulomb = Return tau.
Proof.
  intros Hself HTc. rewrite (assign_run _ _ _ _ Hself).
  destruct (assigned s L) as [e|L'] eqn:E; simpl.
  - exists L. split; [apply heard_self, Hself|]. split; [exact HTc|].
    split; [reflexivity|]. intros qd c. apply friction_returns, HTc.
  - exists L'. split; [apply lookup_insert_eq|].
    pose proof (assigned_Tc_pair _ _ _ HTc E) as HTc'.
    split; [exact HTc'|]. split; [exact (assigned_robot _ _ _ E)|].
    intros qd c. apply friction_returns, HTc'.
Qed.

Lemma assign_keeps_coulomb_pair_witness :
  let s := Assign_Tc (Matrix [[5]; [-4]]%float) in
  (links friction_world !! 4%nat = Some owned_prismatic_link
   /\ length (_Tc owned_prismatic_link) = 2%nat)
  /\ exists L' : DHLink,
       links (assign 4%nat s friction_world).2 !! 4%nat = Some L'
       /\ length (_Tc L') = 2%nat
       /\ _robot L' = _robot owned_prismatic_link
       /\ forall (qd : float) (coulomb : bool),
            exists tau : float, friction L' qd coulomb = Return tau.
Proof.
  intros s. split; [split; reflexivity|].
  apply (assign_keeps_coulomb_pair friction_world 4%nat owned_prismatic_link
           s); reflexivity.
Defined.

(** ** Well-formed links *)

(** X2: on a well-formed link neither [friction] nor [islimit] can run
    off the end of an array: both return a value for every argument. *)
Theorem well_formed_never_index_error (L : DHLink) (q : float)
    (coulomb : bool) :
  well_formed L = true ->
  (exists tau : float, friction L q coulomb = Return tau)
  /\ (exists b : bool, islimit L q = Return b).
Proof.
  unfold well_formed. intros Hwf.
  repeat (apply andb_prop in Hwf as [Hwf ?]).
  split.
  - unfold friction.
    destruct (_Tc L) as [|p [|n [|? ?]]]; try discriminate.
    destruct coulomb; [|eauto].
    destruct (0 <? q)%float; [simpl; eauto|].
    destruct (q <? 0)%float; simpl; eauto.
  - unfold islimit.
    destruct (_qlim L) as [|lo [|hi [|? ?]]]; try discriminate. simpl.
    destruct (q <? lo)%float; [eauto|].
    destruct (hi <? q)%float; eauto.
Qed.

Lemma well_formed_never_index_error_witness :
  well_formed owned_prismatic_link = true
  /\ (exists tau : float, friction owned_prismatic_link 4 true = Return tau)
  /\ (exists b : bool, islimit owned_prismatic_link 4 = Return b).
Proof.
  split; [reflexivity|].
  apply (well_formed_never_index_error owned_prismatic_link 4 true).
  reflexivity.
Defined.

(** ** What an assignment leaves alone *)

Lemma calls_notified_other (w : world) (L : DHLink) (r : loc) :
  _robot L <> Some r -> calls (notified L w) r = calls w r.
Proof.
  intros Hr. unfold notified. destruct (_robot L) as [r0|]; [|reflexivity].
  unfold calls at 1. simpl. rewrite lookup_insert_ne by congruence.
  reflexivity.
Qed.

(** X3: an assignment to one link changes no other link object, and
    the only robot that can hear of it is the owner of that link. *)
Theorem assign_frame (w : world) (self : loc) (L : DHLink) (s : assignment) :
  links w !! self = Some L ->
  (forall l : loc,
     l <> self -> links (assign self s w).2 !! l = links w !! l)
  /\ (forall r : loc,
        _robot L <> Some r -> calls (assign self s w).2 r = calls w r).
Proof.
  intros Hself. rewrite (assign_run _ _ _ _ Hself).
  assert (Hc : forall r,
             _robot L <> Some r -> calls (heard s L w) r = calls w r).
  { intros r Hr. unfold heard. destruct (affects_dynamics s); [|reflexivity].
    apply calls_notified_other, Hr. }
  destruct (assigned s L) as [e|L']; simpl; split.
  - intros l _. rewrite links_heard. reflexivity.
  - exact Hc.
  - intros l Hl. rewrite lookup_insert_ne by congruence.
    rewrite links_heard. reflexivity.
  - exact Hc.
Qed.

Lemma assign_frame_witness :
  let s := Assign_I (Vector [1; 2; 3]%float) in
  links small_world !! 2%nat = Some owned_link
  /\ (forall l : loc,
        l <> 2%nat ->
        links (assign 2%nat s small_world).2 !! l = links small_world !! l)
  /\ (forall r : loc,
        _robot owned_link <> Some r ->
        calls (assign 2%nat s small_world).2 r = calls small_world r).
Proof.
  intros s. split; [reflexivity|].
  apply (assign_frame small_world 2%nat owned_link s). reflexivity.
Defined.

(** X4: assigning the offset, the limits or the direction flag never
    tells a robot anything, and no assignment to a link without an owner
    does: the record of [dynchanged()] calls is left as it was, also when
    the assignment raises. *)
Theorem quiet_assignments (w : world) (self : loc) (L : DHLink)
    (s : assignment) :
  links w !! self = Some L ->
  affects_dynamics s = false \/ _robot L = None ->
  dynchanged_calls (assign self s w).2 = dynchanged_calls w.
Proof.
  intros Hself Hq. rewrite (assign_run _ _ _ _ Hself).
  assert (Hh : heard s L w = w).
  { unfold heard, notified.
    destruct Hq as [-> | ->]; [reflexivity|].
    destruct (affects_dynamics s); reflexivity. }
  rewrite Hh. destruct (assigned s L); reflexivity.
Qed.

Lemma quiet_assignments_witness :
  let s := Assign_qlim (Vector [-1; 1]%float) in
  (links small_world !! 2%nat = Some owned_link
   /\ (affects_dynamics s = false \/ _robot owned_link = None))
  /\ dynchanged_calls (assign 2%nat s small_world).2
     = dynchanged_calls small_world.
Proof.
  intros s. split; [split; [reflexivity | left; reflexivity]|].
  apply (quiet_assignments small_world 2%nat owned_link s);
    [reflexivity | left; reflexivity].
Defined.

(** ** Construction *)

Lemma heard_unowned (w : world) (L : DHLink) (s : assignment) :
  _robot L = None -> heard s L w = w.
Proof.
  intros H. unfold heard, notified. rewrite H.
  destruct (affects_dynamics s); reflexivity.
Qed.

Lemma assign_all_then_run {A : Type} (self : loc) (k : M A)
    (ss : list assignment) :
  forall (w : world) (L : DHLink),
    links w !! self = Some L ->
    _robot L = None ->
    match assigned_all ss L with
    | Return L' =>
        assign_all_then self ss k w
        = k (mkWorld (<[self := L']> (links w)) (dynchanged_calls w))
    | Raise e => (assign_all_then self ss k w).1 = Raise e
    end.
Proof.
  induction ss as [|s ss IH]; intros w L Hself Hrobot.
  - simpl. f_equal. destruct w as [ls cs]. simpl in *. f_equal.
    symmetry. apply insert_id, Hself.
  - pose proof (assign_run w self L s Hself) as Hrun.
    rewrite (heard_unowned _ _ _ Hrobot) in Hrun.
    change (assigned_all (s :: ss) L) with (assigned s L ≫= assigned_all ss).
    change (assign_all_then self (s :: ss) k)
      with (assign self s ≫= fun _ => assign_all_then self ss k).
    destruct (assigned s L) as [e|L1] eqn:E.
    + simpl. unfold mbind, M_bind. rewrite Hrun. reflexivity.
    + change (Return L1 ≫= assigned_all ss) with (assigned_all ss L1).
      specialize (IH (stored w self L (fun _ => L1)) L1
                    (lookup_insert_eq _ _ _)
                    (eq_trans (assigned_robot _ _ _ E) Hrobot)).
      rewrite (bind_run _ _ _ _ _ Hrun).
      destruct (assigned_all ss L1) as [e|L']; [exact IH|].
      rewrite IH. simpl. rewrite insert_insert_eq. reflexivity.
Qed.

Lemma DHLink_init_unfold (d alpha theta a : float) (sigma : Z) (mdh : bool)
    (offset : float) (qlim : pyval) (flip : bool) (kw : kwargs) :
  DHLink_init d alpha theta a sigma mdh offset qlim flip kw
  = (self ← new_object;
     assign_all_then self
       (init_assignments d alpha theta a sigma mdh offset qlim flip kw)
       (mret self)).
Proof. reflexivity. Qed.

(** What [__init__] does, from the assignments it makes to a blank object. *)
Lemma DHLink_init_run (d alpha theta a : float) (sigma : Z) (mdh : bool)
    (offset : float) (qlim : pyval) (flip : bool) (kw : kwargs) (w : world) :
  match assigned_all
          (init_assignments d alpha theta a sigma mdh offset qlim flip kw)
          blank with
  | Return L =>
      DHLink_init d alpha theta a sigma mdh offset qlim flip kw w
      = (Return (fresh (dom (links w))),
         mkWorld (<[fresh (dom (links w)) := L]> (links w))
           (dynchanged_calls w))
  | Raise e =>
      (DHLink_init d alpha theta a sigma mdh offset qlim flip kw w).1
      = Raise e
  end.
Proof.
  rewrite DHLink_init_unfold. set (self := fresh (dom (links w))).
  set (ss := init_assignments d alpha theta a sigma mdh offset qlim flip kw).
  pose proof (assign_all_then_run self (mret self) ss
                (mkWorld (<[self := blank]> (links w)) (dynchanged_calls w))
                blank (lookup_insert_eq _ _ _) eq_refl) as H.
  assert (Hnew : new_object w
                 = (Return self,
                    mkWorld (<[self := blank]> (links w))
                      (dynchanged_calls w))) by reflexivity.
  rewrite (bind_run _ _ _ _ _ Hnew).
  destruct (assigned_all ss blank) as [e|L]; [exact H|].
  rewrite H. simpl. rewrite insert_insert_eq. reflexivity.
Qed.

Lemma init_assigned (d alpha theta a : float) (sigma : Z) (mdh : bool)
    (offset : float) (qlim : pyval) (flip : bool) (kw : kwargs) (L : DHLink) :
  assigned_all (init_assignments d alpha theta a sigma mdh offset qlim flip kw)
    blank = Return L ->
  _robot L = None /\ length (_Tc L) = 2%nat /\ constrained L = true
  /\ _sigma L = sigma /\ _theta L = theta /\ _d L = d /\ _alpha L = alpha
  /\ _a L = a /\ _mdh L = Z.b2z mdh /\ _offset L = offset /\ _flip L = flip
  /\ _m L = kw_m kw /\ _Jm L = kw_Jm kw /\ _G L = kw_G kw.
Proof.
  unfold init_assignments, assigned_all, assigned. simpl.
  destruct (negb (truthy sigma) && negb (theta =? 0)%float) eqn:Et;
    [discriminate|]. simpl.
  destruct (truthy sigma && negb (d =? 0)%float) eqn:Ed; [discriminate|].
  simpl.
  destruct (getvector qlim 2) as [|xq] eqn:Eq; [discriminate|]. simpl.
  destruct (getvector (kw_r kw) 3) as [|xr] eqn:Er; [discriminate|]. simpl.
  destruct (checked_inertia (kw_I kw)) as [|xI] eqn:EI; [discriminate|].
  simpl.
  destruct (isscalar (kw_B kw)); [|discriminate]. simpl.
  destruct (checked_Tc (kw_Tc kw)) as [|xt] eqn:ET; [discriminate|]. simpl.
  intros [= <-].
  split; [reflexivity|].
  split; [exact (checked_Tc_length _ _ ET)|].
  split.
  { unfold constrained. simpl. rewrite Et, Ed. reflexivity. }
  repeat split.
Qed.

(** X5: when [DHLink(...)] returns, it returns a new location; every
    object that existed is as it was and no robot has been told anything;
    the new link has no owner, carries the scalar arguments it was given,
    has two Coulomb torques and satisfies the constraint on [theta] and
    [d]. *)
Theorem init_result (d alpha theta a : float) (sigma : Z) (mdh : bool)
    (offset : float) (qlim : pyval) (flip : bool) (kw : kwargs)
    (w w' : world) (l : loc) :
  DHLink_init d alpha theta a sigma mdh offset qlim flip kw w
    = (Return l, w') ->
  links w !! l = None
  /\ dynchanged_calls w' = dynchanged_calls w
  /\ exists L : DHLink,
       links w' = <[l := L]> (links w)
       /\ _robot L = None /\ length (_Tc L) = 2%nat
       /\ constrained L = true
       /\ _sigma L = sigma /\ _theta L = theta /\ _d L = d
       /\ _alpha L = alpha /\ _a L = a /\ _mdh L = Z.b2z mdh
       /\ _offset L = offset /\ _flip L = flip
       /\ _m L = kw_m kw /\ _Jm L = kw_Jm kw /\ _G L = kw_G kw.
Proof.
  intros Hrun.
  pose proof (DHLink_init_run d alpha theta a sigma mdh offset qlim flip kw w)
    as H.
  destruct (assigned_all _ blank) as [e|L] eqn:E.
  - rewrite Hrun in H. discriminate.
  - rewrite Hrun in H. injection H as -> ->.
    split; [apply not_elem_of_dom, is_fresh|].
    split; [reflexivity|].
    exists L. split; [reflexivity|].
    exact (init_assigned _ _ _ _ _ _ _ _ _ _ _ E).
Qed.

Lemma init_result_witness :
  let call := DHLink_init 0 0 0.5 1 1 true 0.25 (PyList [-1; 1]%float) true
                (mkKwargs 2 (PyList [1; 2; 3]%float)
                   (PyList [1; 2; 3; 4; 5; 6]%float) 0 (Scalar 0.5)
                   (Scalar 5) (-3)) small_world in
  call.1 = Return 3%nat
  /\ links small_world !! 3%nat = None
  /\ dynchanged_calls call.2 = dynchanged_calls small_world
  /\ exists L : DHLink,
       links call.2 = <[3%nat := L]> (links small_world)
       /\ length (_Tc L) = 2%nat /\ constrained L = true
       /\ _sigma L = 1 /\ _theta L = 0.5%float.
Proof.
  intros call. split; [reflexivity|].
  destruct (init_result 0 0 0.5 1 1 true 0.25 (PyList [-1; 1]%float) true
              (mkKwargs 2 (PyList [1; 2; 3]%float)
                 (PyList [1; 2; 3; 4; 5; 6]%float) 0 (Scalar 0.5)
                 (Scalar 5) (-3)) small_world call.2 3%nat)
    as (Hnone & Hcalls & L & Hlinks & _ & HTc & Hcon & Hsig & Hth & _).
  { vm_compute. reflexivity. }
  split; [exact Hnone|]. split; [exact Hcalls|].
  exists L. repeat split; assumption.
Defined.

(** X6: [DHLink(...)] checks [theta] and [d] against [sigma] before it
    looks at any other argument: a revolute link with a nonzero [theta]
    is refused with the message about [theta], and a prismatic one with a
    nonzero [d] with the message about [d], whatever the rest is. *)
Theorem init_constraint_errors (d alpha theta a : float) (sigma : Z)
    (mdh : bool) (offset : float) (qlim : pyval) (flip : bool) (kw : kwargs)
    (w : world) :
  (sigma = 0 -> (theta =? 0)%float = false ->
   (DHLink_init d alpha theta a sigma mdh offset qlim flip kw w).1
   = Raise (ValueError "theta is not valid for revolute joints"))
  /\ (sigma <> 0 -> (d =? 0)%float = false ->
      (DHLink_init d alpha theta a sigma mdh offset qlim flip kw w).1
      = Raise (ValueError "f is not valid for prismatic joints")).
Proof.
  pose proof (DHLink_init_run d alpha theta a sigma mdh offset qlim flip kw w)
    as H.
  split.
  - intros -> Ht.
    assert (E : assigned_all
                  (init_assignments d alpha theta a 0 mdh offset qlim flip kw)
                  blank
                = Raise (ValueError "theta is not valid for revolute joints")).
    { unfold init_assignments, assigned_all, assigned. simpl. rewrite Ht.
      reflexivity. }
    rewrite E in H. exact H.
  - intros Hs Hd.
    assert (Htr : truthy sigma = true)
      by (unfold truthy; apply negb_true_iff, Z.eqb_neq, Hs).
    assert (E : assigned_all
                  (init_assignments d alpha theta a sigma mdh offset qlim
                     flip kw) blank
                = Raise (ValueError "f is not valid for prismatic joints")).
    { unfold init_assignments, assigned_all, assigned. simpl.
      rewrite Htr, Hd. simpl. rewrite Htr. reflexivity. }
    rewrite E in H. exact H.
Qed.

Lemma init_constraint_errors_witness :
  (0 = 0 /\ (0.5 =? 0)%float = false)
  /\ (DHLink_init 2 0 0.5 1 0 false 0 (Vector (zeros 2)) false
        kwargs_default small_world).1
     = Raise (ValueError "theta is not valid for revolute joints").
Proof.
  split; [split; reflexivity|].
  apply (init_constraint_errors 2 0 0.5 1 0 false 0 (Vector (zeros 2)) false
           kwargs_default small_world); reflexivity.
Defined.

(** X7: with the limits and the dynamic parameters at their defaults,
    each of the four presets returns a new link of its joint type and
    convention, with [theta] (revolute) or [d] (prismatic) at zero and the
    other kinematic parameters as given. *)
Theorem presets_fix_type_and_convention (w : world)
    (x a alpha offset : float) (flip : bool) :
  let built (L : DHLink) :=
    _a L = a /\ _alpha L = alpha /\ _offset L = offset /\ _flip L = flip in
  (exists (w' : world) (L : DHLink),
     RevoluteDH x a alpha offset (Vector (zeros 2)) flip kwargs_default w
       = (Return (fresh (dom (links w))), w')
     /\ links w' !! fresh (dom (links w)) = Some L
     /\ jointType L = Revolute /\ convention L = Standard
     /\ _theta L = 0%float /\ _d L = x /\ built L)
  /\ (exists (w' : world) (L : DHLink),
        PrismaticDH x a alpha offset (Vector (zeros 2)) flip kwargs_default w
          = (Return (fresh (dom (links w))), w')
        /\ links w' !! fresh (dom (links w)) = Some L
        /\ jointType L = Prismatic /\ convention L = Standard
        /\ _d L = 0%float /\ _theta L = x /\ built L)
  /\ (exists (w' : world) (L : DHLink),
        RevoluteMDH x a alpha offset (Vector (zeros 2)) flip kwargs_default w
          = (Return (fresh (dom (links w))), w')
        /\ links w' !! fresh (dom (links w)) = Some L
        /\ jointType L = Revolute /\ convention L = Modified
        /\ _theta L = 0%float /\ _d L = x /\ built L)
  /\ (exists (w' : world) (L : DHLink),
        PrismaticMDH x a alpha offset (Vector (zeros 2)) flip kwargs_default w
          = (Return (fresh (dom (links w))), w')
        /\ links w' !! fresh (dom (links w)) = Some L
        /\ jointType L = Prismatic /\ convention L = Modified
        /\ _d L = 0%float /\ _theta L = x /\ built L).
Proof.
  intros built. unfold built.
  split; [|split; [|split]].
  - destruct (DHLink_init_default w x alpha 0 a 0 false offset flip
                eq_refl eq_refl) as (w' & Hrun & Hl).
    eexists w', _. split; [exact Hrun|]. split; [exact Hl|]. repeat split.
  - destruct (DHLink_init_default w 0 alpha x a 1 false offset flip
                eq_refl eq_refl) as (w' & Hrun & Hl).
    eexists w', _. split; [exact Hrun|]. split; [exact Hl|]. repeat split.
  - destruct (DHLink_init_default w x alpha 0 a 0 true offset flip
                eq_refl eq_refl) as (w' & Hrun & Hl).
    eexists w', _. split; [exact Hrun|]. split; [exact Hl|]. repeat split.
  - destruct (DHLink_init_default w 0 alpha x a 1 true offset flip
                eq_refl eq_refl) as (w' & Hrun & Hl).
    eexists w', _. split; [exact Hrun|]. split; [exact Hl|]. repeat split.
Qed.

(** ** Friction *)

Lemma abs_opp (x : float) : abs (- x) = abs x.
Proof.
  apply Prim2SF_inj. rewrite !abs_spec, opp_spec.
  destruct (Prim2SF x); reflexivity.
Qed.

Lemma opp_involutive (x : float) : (- - x)%float = x.
Proof.
  apply Prim2SF_inj. rewrite !opp_spec.
  destruct (Prim2SF x) as [s|s| |s m e]; simpl; rewrite ?negb_involutive;
    reflexivity.
Qed.

(** X8: only the absolute value of the gear ratio enters the friction:
    a link with gear ratio [-g] has the friction of the link with [g]. *)
Theorem friction_ignores_gear_sign (L : DHLink) (g qd : float)
    (coulomb : bool) :
  friction (set_G (- g) L) qd coulomb = friction (set_G g L) qd coulomb.
Proof.
  unfold friction. simpl. unfold np_abs. rewrite abs_opp. reflexivity.
Qed.

(** X9: when Coulomb friction is switched off, or the velocity is
    neither positive nor negative, [friction] is the viscous term alone
    and never reads the Coulomb pair; at velocity zero the flag makes no
    difference. *)
Theorem friction_viscous_only (L : DHLink) (qd : float) (coulomb : bool) :
  (coulomb = false \/ ((0 <? qd)%float = false /\ (qd <? 0)%float = false) ->
   friction L qd coulomb
   = Return (- np_abs (_G L) * (_B L * np_abs (_G L) * qd))%float)
  /\ friction L 0 true = friction L 0 false.
Proof.
  split; [|reflexivity].
  unfold friction. intros [-> | [Hp Hn]]; [reflexivity|].
  rewrite Hp, Hn. destruct coulomb; reflexivity.
Qed.

Lemma friction_viscous_only_witness :
  (false = false \/ ((0 <? 4)%float = false /\ (4 <? 0)%float = false))
  /\ friction (set_Tc [] owned_prismatic_link) 4 false = Return (-9)%float.
Proof.
  split; [left; reflexivity|].
  apply (friction_viscous_only (set_Tc [] owned_prismatic_link) 4 false).
  left. reflexivity.
Defined.

(** ** The link transform *)

Section TransformMore.

Variables np_sin np_cos : float -> float.

(** X10: reversing the direction flag and negating the joint variable
    gives the same transform, for either joint type and any offset. *)
Theorem flip_is_negation (L : DHLink) (q : float) :
  A np_sin np_cos (set_flip (negb (_flip L)) L) (- q) = A np_sin np_cos L q.
Proof.
  unfold A. simpl. destruct (_flip L); simpl; [reflexivity|].
  rewrite opp_involutive. reflexivity.
Qed.

(** X11: the transform of a revolute link does not depend on its
    [theta], nor that of a prismatic link on its [d]. *)
Theorem transform_ignores_inactive_parameter (L : DHLink) (x q : float) :
  (_sigma L = 0 ->
   A np_sin np_cos (set_theta x L) q = A np_sin np_cos L q)
  /\ (_sigma L <> 0 ->
      A np_sin np_cos (set_d x L) q = A np_sin np_cos L q).
Proof.
  split; intros Hs; unfold A; simpl.
  - rewrite Hs. reflexivity.
  - apply Z.eqb_neq in Hs. rewrite Hs. reflexivity.
Qed.

End TransformMore.

Lemma transform_ignores_inactive_parameter_witness :
  (_sigma revolute_link = 0
   /\ A sin_poly cos_poly (set_theta 0.5 revolute_link) 0.25
      = A sin_poly cos_poly revolute_link 0.25)
  /\ (_sigma prismatic_link <> 0
      /\ A sin_poly cos_poly (set_d 0.5 prismatic_link) 0.25
         = A sin_poly cos_poly prismatic_link 0.25).
Proof.
  split.
  - split; [reflexivity|].
    apply (transform_ignores_inactive_parameter sin_poly cos_poly
             revolute_link 0.5 0.25). reflexivity.
  - split; [discriminate|].
    apply (transform_ignores_inactive_parameter sin_poly cos_poly
             prismatic_link 0.5 0.25). discriminate.
Defined.

(** ** Setters that check their argument *)

(** X12: the viscous friction setter stores a scalar and refuses
    anything else with a [TypeError], leaving the link as it was. *)
Theorem viscous_setter_scalar_only (w : world) (self : loc) (L : DHLink)
    (v : pyval) :
  links w !! self = Some L ->
  (forall x : float,
     v = Scalar x ->
     (B_setter self v w).1 = Return tt
     /\ links (B_setter self v w).2 !! self = Some (set_B x L))
  /\ (isscalar v = false ->
      (B_setter self v w).1 = Raise (TypeError "B must be a scalar")
      /\ links (B_setter self v w).2 !! self = Some L).
Proof.
  intros Hself. rewrite (B_setter_run _ _ _ Hself). split.
  - intros x ->. simpl. split; [reflexivity | apply lookup_insert_eq].
  - destruct v; simpl; try discriminate; intros _;
      (split; [reflexivity | apply notified_self, Hself]).
Qed.

Lemma viscous_setter_scalar_only_witness :
  (links small_world !! 2%nat = Some owned_link
   /\ isscalar (Vector [1; 2]%float) = false)
  /\ (B_setter 2%nat (Vector [1; 2]%float) small_world).1
     = Raise (TypeError "B must be a scalar")
  /\ links (B_setter 2%nat (Vector [1; 2]%float) small_world).2 !! 2%nat
     = Some owned_link.
Proof.
  split; [split; reflexivity|].
  apply (viscous_setter_scalar_only small_world 2%nat owned_link
           (Vector [1; 2]%float)); reflexivity.
Defined.

(** X13: [islimit] reads the upper limit only when the lower one has
    not decided: with no limits it raises [IndexError]; with a single
    limit it returns true below that limit and raises [IndexError]
    otherwise.  The limits setter stores the empty list as it is, so a link
    without limits can be made by assignment. *)
Theorem islimit_short_limits (L : DHLink) (q : float) :
  (_qlim L = [] ->
   exists msg : string, islimit L q = Raise (IndexError msg))
  /\ (forall lo : float,
        _qlim L = [lo] ->
        if (q <? lo)%float then islimit L q = Return true
        else exists msg : string, islimit L q = Raise (IndexError msg))
  /\ (forall (w : world) (self : loc),
        links w !! self = Some L ->
        (qlim_setter self (PyList []) w).1 = Return tt
        /\ links (qlim_setter self (PyList []) w).2 !! self
           = Some (set_qlim [] L)).
Proof.
  split; [|split].
  - intros H. unfold islimit. rewrite H. eexists. reflexivity.
  - intros lo H. unfold islimit. rewrite H. simpl.
    destruct (q <? lo)%float; [reflexivity|]. eexists. reflexivity.
  - intros w self Hself. rewrite (qlim_setter_run _ _ _ _ Hself). simpl.
    split; [reflexivity | apply lookup_insert_eq].
Qed.

Lemma islimit_short_limits_witness :
  let L := set_qlim [1]%float owned_link in
  _qlim L = [1]%float
  /\ islimit L 0.5 = Return true
  /\ (exists msg : string, islimit L 2 = Raise (IndexError msg))
  /\ (links small_world !! 2%nat = Some owned_link
      /\ (qlim_setter 2%nat (PyList []) small_world).1 = Return tt).
Proof.
  intros L. split; [reflexivity|].
  destruct (islimit_short_limits L 0.5) as (_ & Hlow & _).
  destruct (islimit_short_limits L 2) as (_ & Hhigh & _).
  destruct (islimit_short_limits owned_link 0) as (_ & _ & Hset).
  split; [exact (Hlow 1%float eq_refl)|].
  split; [exact (Hhigh 1%float eq_refl)|].
  split; [reflexivity|]. apply (Hset small_world 2%nat eq_refl).
Defined.

(** X14: on a well-formed link, writing back to the inertia, the
    Coulomb pair, the centre of mass or the limits the value just read
    from it succeeds and leaves the link exactly as it was. *)
Theorem reassign_what_was_read (w : world) (self : loc) (L : DHLink) :
  links w !! self = Some L ->
  well_formed L = true ->
  ((I_setter self (_I L) w).1 = Return tt
   /\ links (I_setter self (_I L) w).2 !! self = Some L)
  /\ ((Tc_setter self (Vector (_Tc L)) w).1 = Return tt
      /\ links (Tc_setter self (Vector (_Tc L)) w).2 !! self = Some L)
  /\ ((r_setter self (Vector (_r L)) w).1 = Return tt
      /\ links (r_setter self (Vector (_r L)) w).2 !! self = Some L)
  /\ ((qlim_setter self (Vector (_qlim L)) w).1 = Return tt
      /\ links (qlim_setter self (Vector (_qlim L)) w).2 !! self = Some L).
Proof.
  intros Hself Hwf. unfold well_formed in Hwf.
  repeat (apply andb_prop in Hwf as [Hwf ?]).
  assert (HI : assigned (Assign_I (_I L)) L = Return L).
  { destruct L as [ro si th d0 al a0 md off fl ql m0 r0 I0 Jm0 B0 Tc0 G0].
    simpl in *. unfold checked_inertia.
    destruct (ismatrix_33_inv I0) as (a & b & c & d & e & f & g & h & i & ->);
      [assumption|].
    change (ismatrix _ (3, 3)%nat) with true. cbv iota.
    simpl rows_of in *. destruct (not_symmetric _); [discriminate|].
    reflexivity. }
  assert (HTc : assigned (Assign_Tc (Vector (_Tc L))) L = Return L).
  { destruct L as [ro si th d0 al a0 md off fl ql m0 r0 I0 Jm0 B0 Tc0 G0].
    simpl in *. destruct Tc0 as [|p [|n [|? ?]]]; try discriminate.
    reflexivity. }
  assert (Hr : assigned (Assign_r (Vector (_r L))) L = Return L).
  { destruct L as [ro si th d0 al a0 md off fl ql m0 r0 I0 Jm0 B0 Tc0 G0].
    simpl in *. destruct (Nat.eqb (length r0) 3); [|discriminate].
    reflexivity. }
  assert (Hq : assigned (Assign_qlim (Vector (_qlim L))) L = Return L).
  { destruct L as [ro si th d0 al a0 md off fl ql m0 r0 I0 Jm0 B0 Tc0 G0].
    simpl in *. destruct (Nat.eqb (length ql) 2); [|discriminate].
    reflexivity. }
  pose proof (assign_run w self L (Assign_I (_I L)) Hself) as RI.
  pose proof (assign_run w self L (Assign_Tc (Vector (_Tc L))) Hself) as RTc.
  pose proof (assign_run w self L (Assign_r (Vector (_r L))) Hself) as Rr.
  pose proof (assign_run w self L (Assign_qlim (Vector (_qlim L))) Hself)
    as Rq.
  rewrite HI in RI. rewrite HTc in RTc. rewrite Hr in Rr. rewrite Hq in Rq.
  simpl assign in *.
  rewrite RI, RTc, Rr, Rq. simpl.
  repeat split; apply lookup_insert_eq.
Qed.

Lemma reassign_what_was_read_witness :
  (links small_world !! 2%nat = Some owned_link
   /\ well_formed owned_link = true)
  /\ (I_setter 2%nat (_I owned_link) small_world).1 = Return tt
  /\ links (I_setter 2%nat (_I owned_link) small_world).2 !! 2%nat
     = Some owned_link.
Proof.
  split; [split; reflexivity|].
  apply (reassign_what_was_read small_world 2%nat owned_link); reflexivity.
Defined.

(** X15: the joint type setter checks nothing.  Turning a link whose [d]
    is not zero into a prismatic one succeeds and keeps [d], after which
    the link violates the constraint on [d] and writing its own [d] back
    to it is refused. *)
Theorem sigma_is_not_revalidated (w : world) (self : loc) (L : DHLink)
    (sigma_new : Z) :
  links w !! self = Some L ->
  sigma_new <> 0 ->
  (_d L =? 0)%float = false ->
  exists w1 : world,
    sigma_setter self sigma_new w = (Return tt, w1)
    /\ links w1 !! self = Some (set_sigma sigma_new L)
    /\ isprismatic (set_sigma sigma_new L) = true
    /\ _d (set_sigma sigma_new L) = _d L
    /\ constrained (set_sigma sigma_new L) = false
    /\ (d_setter self (_d L) w1).1
       = Raise (ValueError "f is not valid for prismatic joints").
Proof.
  intros Hself Hs Hd.
  assert (Htr : truthy sigma_new = true)
    by (unfold truthy; apply negb_true_iff, Z.eqb_neq, Hs).
  eexists. split; [exact (plain_setter_run _ _ _ Hself set_sigma sigma_new)|].
  split; [apply lookup_insert_eq|].
  split; [unfold isprismatic; simpl; rewrite Htr; reflexivity|].
  split; [reflexivity|].
  split; [unfold constrained; simpl; rewrite Htr, Hd; reflexivity|].
  erewrite d_setter_run by apply stored_self.
  simpl. rewrite Htr, Hd. reflexivity.
Qed.

Lemma sigma_is_not_revalidated_witness :
  (links small_world !! 0%nat = Some revolute_link
   /\ 1 <> 0 /\ (_d revolute_link =? 0)%float = false)
  /\ exists w1 : world,
       sigma_setter 0%nat 1 small_world = (Return tt, w1)
       /\ links w1 !! 0%nat = Some (set_sigma 1 revolute_link)
       /\ isprismatic (set_sigma 1 revolute_link) = true
       /\ _d (set_sigma 1 revolute_link) = _d revolute_link
       /\ constrained (set_sigma 1 revolute_link) = false
       /\ (d_setter 0%nat (_d revolute_link) w1).1
          = Raise (ValueError "f is not valid for prismatic joints").
Proof.
  split; [repeat split; discriminate|].
  apply (sigma_is_not_revalidated small_world 0%nat revolute_link 1);
    [reflexivity | discriminate | reflexivity].
Defined.

(** ** Copies and their owner *)

Lemma calls_notified_twice (w1 w2 : world) (L1 L2 : DHLink) (r : loc) :
  _robot L1 = Some r -> _robot L2 = Some r ->
  dynchanged_calls w2 = dynchanged_calls (notified L1 w1) ->
  calls (notified L2 w2) r = S (S (calls w1 r)).
Proof.
  intros H1 H2 E. rewrite (calls_notified _ _ _ H2). f_equal.
  unfold calls at 1. rewrite E. apply (calls_notified _ _ _ H1).
Qed.

(** X16: [nofriction] returns a new object that differs from the
    original in nothing but the friction fields the flags select, so it
    has the same owner; every object that existed stays as it was.  The
    owner, if there is one, is told once for each field that is zeroed,
    although none of its links changed; no other robot is told anything. *)
Theorem nofriction_copy_and_owner (w : world) (self : loc) (L : DHLink)
    (coulomb viscous : bool) :
  links w !! self = Some L ->
  exists (link : loc) (w' : world),
    nofriction self coulomb viscous w = (Return link, w')
    /\ links w !! link = None
    /\ links w'
       = <[link := (if coulomb then set_Tc [0; 0]%float else id)
                     ((if viscous then set_B 0 else id) L)]> (links w)
    /\ (forall r : loc,
          _robot L = Some r ->
          calls w' r
          = (calls w r + Nat.b2n viscous + Nat.b2n coulomb)%nat)
    /\ (forall r : loc, _robot L <> Some r -> calls w' r = calls w r).
Proof.
  intros Hself. set (link := fresh (dom (links w))).
  destruct (fresh_link w self L Hself) as [_ Hnone]. fold link in Hnone.
  unfold nofriction.
  erewrite bind_run by (unfold _copy; rewrite Hself; reflexivity).
  fold link.
  set (w1 := mkWorld (<[link := L]> (links w)) (dynchanged_calls w)).
  assert (H1 : links w1 !! link = Some L) by apply lookup_insert_eq.
  destruct viscous.
  - erewrite bind_run by apply (B_setter_run _ _ _ H1 (Scalar 0)).
    set (w2 := stored (notified L w1) link L (set_B 0)).
    assert (H2 : links w2 !! link = Some (set_B 0 L)) by apply stored_self.
    assert (E2 : links w2 = <[link := set_B 0 L]> (links w)).
    { unfold w2, stored. simpl. rewrite links_notified.
      apply insert_insert_eq. }
    destruct coulomb.
    + erewrite bind_run by apply (Tc_setter_run _ _ _ H2 (PyList [0; 0]%float)).
      eexists link, _. split; [reflexivity|]. split; [exact Hnone|].
      split; [simpl; rewrite links_notified, E2; apply insert_insert_eq|].
      split.
      * intros r Hr.
        change (calls (notified (set_B 0 L) w2) r
                = (calls w r + 1 + 1)%nat).
        rewrite (calls_notified_twice w1 w2 L (set_B 0 L) r Hr Hr eq_refl).
        change (calls w1 r) with (calls w r). lia.
      * intros r Hr.
        change (calls (notified (set_B 0 L) w2) r = calls w r).
        rewrite (calls_notified_other _ (set_B 0 L) r Hr).
        change (calls w2 r) with (calls (notified L w1) r).
        exact (calls_notified_other w1 L r Hr).
    + erewrite bind_run by reflexivity.
      eexists link, _. split; [reflexivity|]. split; [exact Hnone|].
      split; [exact E2|]. split.
      * intros r Hr. change (calls (notified L w1) r = (calls w r + 1 + 0)%nat).
        rewrite (calls_notified _ _ _ Hr).
        change (calls w1 r) with (calls w r). lia.
      * intros r Hr. exact (calls_notified_other w1 L r Hr).
  - erewrite bind_run by reflexivity.
    destruct coulomb.
    + erewrite bind_run by apply (Tc_setter_run _ _ _ H1 (PyList [0; 0]%float)).
      eexists link, _. split; [reflexivity|]. split; [exact Hnone|].
      split; [simpl; rewrite links_notified; apply insert_insert_eq|].
      split.
      * intros r Hr. change (calls (notified L w1) r = (calls w r + 0 + 1)%nat).
        rewrite (calls_notified _ _ _ Hr).
        change (calls w1 r) with (calls w r). lia.
      * intros r Hr. exact (calls_notified_other w1 L r Hr).
    + erewrite bind_run by reflexivity.
      eexists link, _. split; [reflexivity|]. split; [exact Hnone|].
      split; [reflexivity|]. split.
      * intros r _. change (calls w r = (calls w r + 0 + 0)%nat). lia.
      * intros r _. reflexivity.
Qed.

Lemma nofriction_copy_and_owner_witness :
  links small_world !! 2%nat = Some owned_link
  /\ exists (link : loc) (w' : world),
       nofriction 2%nat true true small_world = (Return link, w')
       /\ links w' !! link
          = Some (set_Tc [0; 0]%float (set_B 0 owned_link))
       /\ calls small_world 7%nat = 2%nat
       /\ calls w' 7%nat = 4%nat.
Proof.
  split; [reflexivity|].
  destruct (nofriction_copy_and_owner small_world 2%nat owned_link true true
              eq_refl) as (link & w' & Hrun & _ & Hlinks & Hcalls & _).
  exists link, w'. split; [exact Hrun|].
  split; [rewrite Hlinks; apply lookup_insert_eq|].
  split; [reflexivity|]. apply (Hcalls 7%nat eq_refl).
Defined.

(** ** The fields that are free *)

(** X17: the constraint bears on one field per joint type only: on a
    revolute link every value, zero or not, can be assigned to [d], and on
    a prismatic link every value can be assigned to [theta]. *)
Theorem active_field_is_free (w : world) (self : loc) (L : DHLink)
    (v : float) :
  links w !! self = Some L ->
  (isrevolute L = true ->
   (d_setter self v w).1 = Return tt
   /\ links (d_setter self v w).2 !! self = Some (set_d v L))
  /\ (isprismatic L = true ->
      (theta_setter self v w).1 = Return tt
      /\ links (theta_setter self v w).2 !! self = Some (set_theta v L)).
Proof.
  intros Hself.
  rewrite (d_setter_run _ _ _ Hself), (theta_setter_run _ _ _ Hself).
  unfold isrevolute, isprismatic.
  destruct (truthy (_sigma L)); simpl; split; try discriminate; intros _;
    (split; [reflexivity | apply lookup_insert_eq]).
Qed.

Lemma active_field_is_free_witness :
  (links small_world !! 1%nat = Some prismatic_link
   /\ isprismatic prismatic_link = true)
  /\ (theta_setter 1%nat 0.25 small_world).1 = Return tt
  /\ links (theta_setter 1%nat 0.25 small_world).2 !! 1%nat
     = Some (set_theta 0.25 prismatic_link).
Proof.
  split; [split; reflexivity|].
  apply (active_field_is_free small_world 1%nat prismatic_link 0.25);
    reflexivity.
Defined.
